(** * run_server.py: a supervisor for a Minecraft server process

    A shallow embedding of [src/run_server.py] and the properties of its
    output relay ([read_output]), input capture ([input_thread]), command
    interpreter (the loop of [main]) and shutdown sequence
    ([shutdown_server]).

    - Text.  Python [str] values are [string]s; a character stands for the
      code point of the same number, so the model covers text whose code
      points are below 256, with [lower] and [strip] as Python has them
      there.
    - State and exceptions.  The program is written in a monad of state and
      exceptions over a [world]: the child's process handle, what has reached
      the child's input, the console, the queue of captured lines, the flags.
    - The outside.  What the program cannot decide is part of the world it
      starts in: when the child is gone ([child_exit], read against the
      [clock]), whether the child still reads its input ([stdin_closed]),
      whether an interrupt is pending ([sigint]), what a stream will deliver
      (a list of [stream_event]).  Every theorem quantifies over them.
    - Threads.  The relay, the capture task and the main thread are one
      function each; they meet in the world only.  An interrupt is delivered
      where the main thread waits on the queue.  Launching the child and the
      threads is not part of the model: [main] starts at its [try]. *)

From Stdlib Require Import String Ascii List Bool NArith ZArith Lia.
Import ListNotations.
Open Scope string_scope.

(** ** Python strings *)

Module PyStr.

Definition LF : ascii := "010"%char.

(** ["\n"] *)
Definition nl : string := String LF EmptyString.

Definition code (c : ascii) : N := N_of_ascii c.

(** [str.isspace] on one character. *)
Definition isspace (c : ascii) : bool :=
  let n := code c in
  ((9 <=? n) && (n <=? 13) || (28 <=? n) && (n <=? 32)
   || (n =? 133) || (n =? 160))%N.

Definition isupper (c : ascii) : bool :=
  let n := code c in
  ((65 <=? n) && (n <=? 90)
   || (192 <=? n) && (n <=? 222) && negb (n =? 215))%N.

Definition lower_char (c : ascii) : ascii :=
  if isupper c then ascii_of_N (code c + 32) else c.

(** [s.lower()] *)
Fixpoint lower (s : string) : string :=
  match s with
  | EmptyString => EmptyString
  | String c r => String (lower_char c) (lower r)
  end.

Fixpoint all_space (s : string) : bool :=
  match s with
  | EmptyString => true
  | String c r => isspace c && all_space r
  end.

(** [s.lstrip()] *)
Fixpoint lstrip (s : string) : string :=
  match s with
  | EmptyString => EmptyString
  | String c r => if isspace c then lstrip r else s
  end.

(** [s.rstrip()] *)
Fixpoint rstrip (s : string) : string :=
  match s with
  | EmptyString => EmptyString
  | String c r =>
      match rstrip r with
      | EmptyString => if isspace c then EmptyString else String c EmptyString
      | r' => String c r'
      end
  end.

(** [s.strip()] *)
Definition strip (s : string) : string := rstrip (lstrip s).

(** [s.startswith(p)] *)
Fixpoint startswith (s p : string) {struct p} : bool :=
  match p with
  | EmptyString => true
  | String a p' =>
      match s with
      | EmptyString => false
      | String b s' => Ascii.eqb a b && startswith s' p'
      end
  end.

(** [s[n:]] *)
Fixpoint slice_from (n : nat) (s : string) : string :=
  match n, s with
  | O, _ => s
  | S _, EmptyString => EmptyString
  | S m, String _ r => slice_from m r
  end.

(** [s[:n]] *)
Fixpoint slice_to (n : nat) (s : string) : string :=
  match n, s with
  | O, _ => EmptyString
  | S _, EmptyString => EmptyString
  | S m, String c r => String c (slice_to m r)
  end.

(** A line without its terminator: what "verbatim, apart from line
    termination" keeps of a line. *)
Fixpoint chomp (s : string) : string :=
  match s with
  | EmptyString => EmptyString
  | String c r =>
      match r with
      | EmptyString => if Ascii.eqb c LF then EmptyString else s
      | _ => String c (chomp r)
      end
  end.

End PyStr.
Import PyStr.

(** ** [datetime.now().strftime("%H:%M:%S")] *)

Module Clock.

(** The clock counts tenths of a second since local midnight, the grain of
    the 0.1 s polls of the program. *)
Definition ticks_per_second : N := 10.

Definition digit (d : N) : ascii := ascii_of_N (48 + d).

Definition two_digits (n : N) : string :=
  String (digit ((n / 10) mod 10)) (String (digit (n mod 10)) EmptyString).

Definition hour (t : N) : N := ((t / ticks_per_second) / 3600) mod 24.
Definition minute (t : N) : N := ((t / ticks_per_second) / 60) mod 60.
Definition second (t : N) : N := (t / ticks_per_second) mod 60.

Definition strftime_HMS (t : N) : string :=
  two_digits (hour t) ++ ":" ++ two_digits (minute t) ++ ":"
  ++ two_digits (second t).

Definition at_time (h m s : N) : N :=
  ((h * 3600 + m * 60 + s) * ticks_per_second)%N.

End Clock.

(** ** The world the program runs in *)

(** The exceptions the program meets.  All but [KeyboardInterrupt] are
    subclasses of [Exception]. *)
Inductive exn : Type :=
| BrokenPipeError
| TimeoutExpired
| QueueEmpty
| UnicodeDecodeError
| ValueError
| OSError
| KeyboardInterrupt.

(** [isinstance(e, Exception)] *)
Definition is_Exception (e : exn) : bool :=
  match e with
  | KeyboardInterrupt => false
  | _ => true
  end.

(** One turn of the [select]/[readline] pair on a text stream. *)
Inductive stream_event : Type :=
| Quiet                      (* select times out after 0.1 s: not ready *)
| Data (line : string)       (* ready; readline returns [line] *)
| SelectFails (e : exn)      (* select raises *)
| ReadFails (e : exn).       (* ready; readline raises *)

(** A stream is what it will deliver; when the list runs out the stream is at
    end of file, where it is ready and [readline] returns the empty string. *)
Definition stream : Type := list stream_event.

(** Calls made on the child's process handle, in the order they are made. *)
Inductive call : Type :=
| StdinWrite (s : string)        (* server_process.stdin.write(s) *)
| StdinFlush                     (* server_process.stdin.flush() *)
| Wait (timeout : option N)      (* server_process.wait(timeout=...), seconds *)
| Terminate.                     (* server_process.terminate() *)

Record world : Type := World {
  clock : N;                     (* tenths of a second since midnight *)
  child_exit : option (N * Z);   (* when the child is gone, and its status *)
  stdin_closed : bool;           (* the child has closed its end of its input *)
  stdin_pending : string;        (* written to the child's input, not flushed *)
  stdin_received : string;       (* what has reached the child's input *)
  calls : list call;
  console : list string;         (* lines printed, oldest first *)
  input_queue : list string;     (* captured lines, oldest first *)
  stop_event : bool;
  sigint : bool;                 (* an interrupt is pending for the main thread *)
  tty_closed : bool              (* sys.stdin has been closed *)
}.

Definition set_clock (t : N) (w : world) : world :=
  World t (child_exit w) (stdin_closed w) (stdin_pending w) (stdin_received w)
    (calls w) (console w) (input_queue w) (stop_event w) (sigint w)
    (tty_closed w).

Definition set_child_exit (x : option (N * Z)) (w : world) : world :=
  World (clock w) x (stdin_closed w) (stdin_pending w) (stdin_received w)
    (calls w) (console w) (input_queue w) (stop_event w) (sigint w)
    (tty_closed w).

Definition set_stdin_pending (s : string) (w : world) : world :=
  World (clock w) (child_exit w) (stdin_closed w) s (stdin_received w)
    (calls w) (console w) (input_queue w) (stop_event w) (sigint w)
    (tty_closed w).

Definition set_stdin_received (s : string) (w : world) : world :=
  World (clock w) (child_exit w) (stdin_closed w) (stdin_pending w) s
    (calls w) (console w) (input_queue w) (stop_event w) (sigint w)
    (tty_closed w).

Definition log_call (c : call) (w : world) : world :=
  World (clock w) (child_exit w) (stdin_closed w) (stdin_pending w)
    (stdin_received w) (calls w ++ [c])%list (console w) (input_queue w)
    (stop_event w) (sigint w) (tty_closed w).

Definition set_console (l : list string) (w : world) : world :=
  World (clock w) (child_exit w) (stdin_closed w) (stdin_pending w)
    (stdin_received w) (calls w) l (input_queue w) (stop_event w) (sigint w)
    (tty_closed w).

Definition set_input_queue (q : list string) (w : world) : world :=
  World (clock w) (child_exit w) (stdin_closed w) (stdin_pending w)
    (stdin_received w) (calls w) (console w) q (stop_event w) (sigint w)
    (tty_closed w).

Definition set_stop_event (b : bool) (w : world) : world :=
  World (clock w) (child_exit w) (stdin_closed w) (stdin_pending w)
    (stdin_received w) (calls w) (console w) (input_queue w) b (sigint w)
    (tty_closed w).

Definition set_sigint (b : bool) (w : world) : world :=
  World (clock w) (child_exit w) (stdin_closed w) (stdin_pending w)
    (stdin_received w) (calls w) (console w) (input_queue w) (stop_event w) b
    (tty_closed w).

Definition set_tty_closed (b : bool) (w : world) : world :=
  World (clock w) (child_exit w) (stdin_closed w) (stdin_pending w)
    (stdin_received w) (calls w) (console w) (input_queue w) (stop_event w)
    (sigint w) b.

(** ** Computations: state and exceptions *)

Inductive result (A : Type) : Type :=
| Done (a : A) (w : world)       (* returns [a] *)
| Raised (e : exn) (w : world)   (* an exception propagates *)
| Diverge.                       (* blocks for ever, or out of fuel *)

Arguments Done {A} a w.
Arguments Raised {A} e w.
Arguments Diverge {A}.

Definition M (A : Type) : Type := world -> result A.

Definition ret {A} (a : A) : M A := fun w => Done a w.

Definition raise {A} (e : exn) : M A := fun w => Raised e w.

Definition bind {A B} (m : M A) (k : A -> M B) : M B :=
  fun w =>
    match m w with
    | Done a w' => k a w'
    | Raised e w' => Raised e w'
    | Diverge => Diverge
    end.

Declare Scope py_scope.
Delimit Scope py_scope with py.
Notation "x <- m ;; k" := (bind m (fun x => k))
  (at level 61, m at next level, right associativity) : py_scope.
Notation "m ;; k" := (bind m (fun _ => k))
  (at level 61, right associativity) : py_scope.
Open Scope py_scope.

(** [try: m  except <classes>: h], where [handles e] tells whether the
    clause matches [e]. *)
Definition try_except {A} (m : M A) (handles : exn -> bool) (h : M A) : M A :=
  fun w =>
    match m w with
    | Raised e w' => if handles e then h w' else Raised e w'
    | r => r
    end.

(** [try: m  finally: f] *)
Definition try_finally {A} (m : M A) (f : M unit) : M A :=
  fun w =>
    match m w with
    | Done a w' =>
        match f w' with
        | Done _ w'' => Done a w''
        | Raised e w'' => Raised e w''
        | Diverge => Diverge
        end
    | Raised e w' =>
        match f w' with
        | Done _ w'' => Raised e w''
        | Raised e' w'' => Raised e' w''
        | Diverge => Diverge
        end
    | Diverge => Diverge
    end.

Definition only (e0 : exn) (e : exn) : bool :=
  match e0, e with
  | TimeoutExpired, TimeoutExpired => true
  | QueueEmpty, QueueEmpty => true
  | KeyboardInterrupt, KeyboardInterrupt => true
  | BrokenPipeError, BrokenPipeError => true
  | UnicodeDecodeError, UnicodeDecodeError => true
  | ValueError, ValueError => true
  | OSError, OSError => true
  | _, _ => false
  end.

(** ** The library calls the program makes *)

(** The child is gone once the clock has reached the time of its exit. *)
Definition exit_status (w : world) : option Z :=
  match child_exit w with
  | Some (t, c) => if (t <=? clock w)%N then Some c else None
  | None => None
  end.

(** [server_process.poll()] *)
Definition poll : M (option Z) := fun w => Done (exit_status w) w.

(** Nobody reads the child's input any more. *)
Definition pipe_broken (w : world) : bool :=
  stdin_closed w || match exit_status w with Some _ => true | None => false end.

(** [server_process.stdin.write(s)]: the text goes to the buffer. *)
Definition stdin_write (s : string) : M unit :=
  fun w => Done tt (set_stdin_pending (stdin_pending w ++ s)
                      (log_call (StdinWrite s) w)).

(** [server_process.stdin.flush()]: the buffer goes to the pipe, which
    raises when nobody reads it. *)
Definition stdin_flush : M unit :=
  fun w =>
    let w1 := log_call StdinFlush w in
    if String.eqb (stdin_pending w1) "" then Done tt w1
    else if pipe_broken w1 then Raised BrokenPipeError w1
    else Done tt (set_stdin_pending ""
                    (set_stdin_received (stdin_received w1 ++ stdin_pending w1)
                       w1)).

(** [server_process.wait(timeout)]: [timeout] in seconds, [None] for an
    unbounded wait. *)
Definition wait (timeout : option N) : M Z :=
  fun w =>
    let w1 := log_call (Wait timeout) w in
    match timeout, child_exit w1 with
    | Some s, Some (t, c) =>
        if (t <=? clock w1 + s * Clock.ticks_per_second)%N
        then Done c (set_clock (N.max (clock w1) t) w1)
        else Raised TimeoutExpired
               (set_clock (clock w1 + s * Clock.ticks_per_second) w1)
    | Some s, None =>
        Raised TimeoutExpired
          (set_clock (clock w1 + s * Clock.ticks_per_second) w1)
    | None, Some (t, c) => Done c (set_clock (N.max (clock w1) t) w1)
    | None, None => Diverge
    end.

(** The status of a child killed by SIGTERM. *)
Definition SIGTERM_status : Z := (-15)%Z.

(** [server_process.terminate()]: a running child is killed on the spot; a
    child that is gone is left alone. *)
Definition terminate : M unit :=
  fun w =>
    let w1 := log_call Terminate w in
    match exit_status w1 with
    | Some _ => Done tt w1
    | None => Done tt (set_child_exit (Some (clock w1, SIGTERM_status)) w1)
    end.

(** [print(s, flush=True)] *)
Definition print (s : string) : M unit :=
  fun w => Done tt (set_console (console w ++ [s])%list w).

(** [datetime.now()] *)
Definition now : M N := fun w => Done (clock w) w.

(** [input_queue.put(s)] *)
Definition queue_put (s : string) : M unit :=
  fun w => Done tt (set_input_queue (input_queue w ++ [s])%list w).

(** [input_queue.get(timeout=0.1)] in the main thread: a pending interrupt
    is delivered here; an empty queue costs the 0.1 s of the timeout. *)
Definition queue_get : M string :=
  fun w =>
    if sigint w then Raised KeyboardInterrupt (set_sigint false w)
    else match input_queue w with
         | u :: q => Done u (set_input_queue q w)
         | [] => Raised QueueEmpty (set_clock (clock w + 1) w)
         end.

(** [stop_event.set()] *)
Definition stop_event_set : M unit := fun w => Done tt (set_stop_event true w).

(** [stop_event.is_set()] *)
Definition stop_event_is_set : M bool := fun w => Done (stop_event w) w.

(** [inp_thread.join(timeout=1)]: the capture task sees the flag at its next
    poll, 0.1 s later. *)
Definition join_input_thread : M unit :=
  fun w => Done tt (set_clock (clock w + 1) w).

(** [sys.stdin.close()] *)
Definition sys_stdin_close : M unit := fun w => Done tt (set_tty_closed true w).

(** ** The program *)

(** [shutdown_server(server_process)] *)
Definition shutdown_server : M unit :=
  p <- poll ;;
  match p with
  | None =>
      try_except (stdin_write ("stop" ++ nl) ;; stdin_flush)
        is_Exception (ret tt) ;;
      try_except (wait (Some 10%N) ;; ret tt)
        (only TimeoutExpired) (terminate ;; wait None ;; ret tt)
  | Some _ => ret tt
  end.

(** [read_output(pipe, callback)]: each turn of the loop takes the next
    event of the pipe. *)
Fixpoint read_output (pipe : stream) (callback : string -> M unit) : M unit :=
  match pipe with
  | [] => ret tt                                   (* end of file: break *)
  | Quiet :: rest => read_output rest callback     (* not ready: continue *)
  | SelectFails e :: _ => raise e
  | ReadFails e :: _ => raise e
  | Data line :: rest =>
      if String.eqb line "" then ret tt            (* if not line: break *)
      else callback (rstrip line) ;; read_output rest callback
  end.

(** [handle_output(line)] of [main] *)
Definition handle_output (line : string) : M unit := print line.

(** [input_thread(stop_event, input_queue)] reading [sys.stdin], given here
    as the stream [stdin]. *)
Fixpoint input_thread (stdin : stream) : M unit :=
  stop <- stop_event_is_set ;;
  if stop : bool then ret tt
  else
    match stdin with
    | [] => ret tt                                 (* end of file: break *)
    | Quiet :: rest => input_thread rest
    | SelectFails e :: _ =>
        try_except (raise e) is_Exception (ret tt) (* except Exception: break *)
    | ReadFails e :: _ =>
        try_except (raise e) is_Exception (ret tt)
    | Data line :: rest =>
        if String.eqb line "" then ret tt          (* if not line: break *)
        else queue_put (strip line) ;; input_thread rest
    end.

(** What one turn of the main loop decides. *)
Inductive control : Type :=
| Next     (* RUNNING: go round again *)
| Break.   (* STOPPING: leave the loop *)

(** The notice printed on an interrupt, by its UTF-8 bytes. *)
Definition closing_notice : string := nl ++ "正在关闭服务器...".

(** Lines 111-121 of [main]: what is done with a dequeued [user_input]. *)
Definition dispatch (user_input : string) : M control :=
  if String.eqb (lower user_input) "exit" then
    shutdown_server ;; ret Break
  else if startswith user_input "fakelog " then
    let message := slice_from (String.length "fakelog ") user_input in
    timestamp <- now ;;
    print ("[" ++ Clock.strftime_HMS timestamp ++ " INFO]: " ++ message) ;;
    ret Next
  else
    p <- poll ;;
    match p with
    | None =>
        stdin_write (user_input ++ nl) ;;
        stdin_flush ;;
        ret Next
    | Some _ => ret Next
    end.

(** Lines 102-121 of [main]: one turn of the [while True] loop. *)
Definition loop_body : M control :=
  p <- poll ;;
  match p with
  | Some _ => ret Break
  | None =>
      got <- try_except (u <- queue_get ;; ret (Some u))
               (only QueueEmpty) (ret None) ;;
      match got with
      | None => ret Next                           (* except queue.Empty: continue *)
      | Some user_input => dispatch user_input
      end
  end.

Fixpoint main_loop (fuel : nat) : M unit :=
  match fuel with
  | O => fun _ => Diverge
  | S fuel' =>
      c <- loop_body ;;
      match c with
      | Break => ret tt
      | Next => main_loop fuel'
      end
  end.

(** The [finally] clause of [main]. *)
Definition main_finally : M unit :=
  stop_event_set ;;
  join_input_thread ;;
  p <- poll ;;
  match p with
  | None => shutdown_server
  | Some _ => ret tt
  end ;;
  try_except sys_stdin_close is_Exception (ret tt).

(** [main()] from the [try] on: the child and the three threads have been
    started.  [fuel] bounds the turns of the loop. *)
Definition main (fuel : nat) : M unit :=
  try_finally
    (try_except (main_loop fuel) (only KeyboardInterrupt)
       (print closing_notice ;; shutdown_server))
    main_finally.

(** ** Vocabulary of the statements *)

(** The child, left alone, is gone within [s] seconds from now. *)
Definition exits_within (s : N) (w : world) : bool :=
  match child_exit w with
  | Some (t, _) => (t <=? clock w + s * Clock.ticks_per_second)%N
  | None => false
  end.

(** What a computation leaves alone on the side of the terminal and of the
    captured input. *)
Definition same_terminal (w w' : world) : Prop :=
  console w' = console w /\ input_queue w' = input_queue w /\
  stop_event w' = stop_event w /\ sigint w' = sigint w /\
  tty_closed w' = tty_closed w.

(** A pipe that delivers lines until its end of file: no failure, and no
    empty read before the end. *)
Definition orderly (pipe : stream) : bool :=
  forallb (fun ev => match ev with
                     | Quiet => true
                     | Data line => negb (String.eqb line "")
                     | _ => false
                     end) pipe.

(** The lines of a pipe, in the order the child wrote them. *)
Fixpoint lines_of (pipe : stream) : list string :=
  match pipe with
  | [] => []
  | Data line :: rest => line :: lines_of rest
  | _ :: rest => lines_of rest
  end.

(** A server that is up, with its input open and nothing typed yet, at
    10:15:07. *)
Definition server_up : world :=
  {| clock := Clock.at_time 10 15 7; child_exit := None;
     stdin_closed := false; stdin_pending := ""; stdin_received := "";
     calls := []; console := []; input_queue := []; stop_event := false;
     sigint := false; tty_closed := false |}.

(** The same after the server has exited with status 0. *)
Definition server_gone : world := set_child_exit (Some (0%N, 0%Z)) server_up.

(** A server that is up but has closed its standard input. *)
Definition server_deaf : world :=
  {| clock := Clock.at_time 10 15 7; child_exit := None;
     stdin_closed := true; stdin_pending := ""; stdin_received := "";
     calls := []; console := []; input_queue := []; stop_event := false;
     sigint := false; tty_closed := false |}.

(** A server that is up, with [l] captured and waiting in the queue. *)
Definition typed (l : list string) (w : world) : world := set_input_queue l w.

(** A stream event that, when it is a failure, is one of the class
    [Exception]. *)
Definition fails_with_Exception (ev : stream_event) : bool :=
  match ev with
  | SelectFails e | ReadFails e => is_Exception e
  | _ => true
  end.

(** Nothing written to a child that reads its input is left unflushed. *)
Definition flushed (w : world) : Prop :=
  pipe_broken w = false -> stdin_pending w = "".

(** The world a computation ends in, by return or by exception, satisfies
    [P]. *)
Definition ends_in {A : Type} (r : result A) (P : world -> Prop) : Prop :=
  match r with
  | Done _ w | Raised _ w => P w
  | Diverge => True
  end.

(** A server that will exit by itself at 10:15:09 with status 0, with three
    lines typed. *)
Definition session : world :=
  {| clock := Clock.at_time 10 15 7;
     child_exit := Some (Clock.at_time 10 15 9, 0%Z);
     stdin_closed := false; stdin_pending := ""; stdin_received := "";
     calls := []; console := [];
     input_queue := ["fakelog Server ready"; "say hi"; "EXIT"; "list"];
     stop_event := false; sigint := false; tty_closed := false |}.

(** A server that exits by itself, with status 1, 0.3 s from now; nobody
    types. *)
Definition crashing : world :=
  set_child_exit (Some ((Clock.at_time 10 15 7 + 3)%N, 1%Z)) server_up.

(** Three lines typed, with blanks around them and a pause between. *)
Definition typing : stream :=
  [Data ("  say hi " ++ nl); Quiet; Data ("fakelog  up " ++ nl);
   Data ("list" ++ nl)].

(** The terminal fails after the first line. *)
Definition failing_terminal : stream :=
  [Data (" say hi " ++ nl); ReadFails OSError; Data ("lost" ++ nl)].

(** What of the lines [us] goes to the child: the lines that are no
    [fakelog ] lines, each with its newline, in order. *)
Fixpoint forwarded (us : list string) : string :=
  match us with
  | [] => ""
  | u :: rest =>
      (if startswith u "fakelog " then "" else u ++ nl) ++ forwarded rest
  end.

(** What of the lines [us] is printed at time [t]: a log line for each
    [fakelog ] line, in order. *)
Fixpoint logged (t : N) (us : list string) : list string :=
  match us with
  | [] => []
  | u :: rest =>
      ((if startswith u "fakelog "
        then [("[" ++ Clock.strftime_HMS t ++ " INFO]: " ++ slice_from 8 u)%string]
        else []) ++ logged t rest)%list
  end.

(** None of the lines is [exit] in some letter case. *)
Definition no_exit (us : list string) : bool :=
  forallb (fun u => negb (String.eqb (lower u) "exit")) us.

(** The main loop can take a line: the child runs and reads its input,
    nothing is left unflushed and no interrupt is pending. *)
Definition ready (w : world) : Prop :=
  exit_status w = None /\ sigint w = false /\
  stdin_closed w = false /\ stdin_pending w = "".

(** Text typed as three [fakelog] lines: one with a message, one with only
    blanks after the word, one cut short by the end of the input. *)
Definition fakelog_typing : stream :=
  [Data ("  fakelog up  " ++ nl); Data ("fakelog   " ++ nl); Data "fakelog "].

(** ** Examples *)

Example lower_EXIT : lower "ExIt" = "exit".
Proof. reflexivity. Qed.

Example strip_ex : strip ("  exit " ++ nl) = "exit".
Proof. reflexivity. Qed.

Example strftime_ex : Clock.strftime_HMS (Clock.at_time 10 15 7) = "10:15:07".
Proof. vm_compute. reflexivity. Qed.

Example rstrip_ex : rstrip ("  at Foo.bar " ++ nl) = "  at Foo.bar".
Proof. reflexivity. Qed.

(** A whole run: a log line printed, a command forwarded, [EXIT] answered
    with [stop]; the child exits in time and [list] stays in the queue. *)
Example session_run :
  exists w',
    main 3 session = Done tt w' /\
    console w' = ["[10:15:07 INFO]: Server ready"] /\
    stdin_received w' = "say hi" ++ nl ++ "stop" ++ nl /\
    calls w' = [StdinWrite ("say hi" ++ nl); StdinFlush;
                StdinWrite ("stop" ++ nl); StdinFlush; Wait (Some 10%N)] /\
    input_queue w' = ["list"] /\
    exit_status w' = Some 0%Z.
Proof. eexists. vm_compute. repeat split; reflexivity. Qed.

(** ** Shutdown *)

Section Shutdown.

Lemma line_not_empty (p s : string) :
  String.eqb (p ++ s ++ nl) "" = false.
Proof. destruct p; [destruct s|]; reflexivity. Qed.

Lemma exit_status_frame (w w' : world) :
  clock w' = clock w -> child_exit w' = child_exit w ->
  exit_status w' = exit_status w.
Proof. unfold exit_status. intros -> ->. reflexivity. Qed.

(** Write a line and flush, with the exception of a broken pipe
    swallowed. *)
Lemma write_flush_guarded (s : string) (w : world) :
  exists w',
    try_except (stdin_write (s ++ nl) ;; stdin_flush) is_Exception (ret tt) w
    = Done tt w' /\
    calls w' = (calls w ++ [StdinWrite (s ++ nl); StdinFlush])%list /\
    stdin_received w' =
      (if pipe_broken w then stdin_received w
       else stdin_received w ++ stdin_pending w ++ s ++ nl) /\
    clock w' = clock w /\ child_exit w' = child_exit w /\
    same_terminal w w'.
Proof.
  unfold try_except, bind, stdin_write, stdin_flush.
  cbn [stdin_pending set_stdin_pending log_call].
  rewrite line_not_empty.
  unfold pipe_broken, exit_status, same_terminal.
  cbn [clock child_exit stdin_closed set_stdin_pending log_call].
  destruct (stdin_closed w
            || match match child_exit w with
                     | Some (t, c0) => if (t <=? clock w)%N then Some c0 else None
                     | None => None
                     end with Some _ => true | None => false end);
    cbn; eexists; (split; [reflexivity|]); cbn;
    rewrite <- app_assoc; repeat split; reflexivity.
Qed.

(** The bounded wait and, when it times out, the kill. *)
Lemma wait_or_terminate (w : world) :
  exit_status w = None ->
  exists w',
    try_except (wait (Some 10%N) ;; ret tt) (only TimeoutExpired)
      (terminate ;; wait None ;; ret tt) w = Done tt w' /\
    calls w' =
      (calls w ++ Wait (Some 10%N)
         :: (if exits_within 10 w then [] else [Terminate; Wait None]))%list /\
    exit_status w' <> None /\
    stdin_received w' = stdin_received w /\
    same_terminal w w'.
Proof.
  unfold exit_status, exits_within, same_terminal.
  destruct w as [clk ce sc sp sr cs con q se si tc].
  cbn [clock child_exit]. intros Hrun.
  unfold try_except, bind, wait.
  cbn [clock child_exit log_call].
  change (10 * Clock.ticks_per_second)%N with 100%N.
  destruct ce as [[t c]|].
  - destruct (t <=? clk + 100)%N eqn:E.
    + eexists; split; [reflexivity|].
      cbn. repeat split; try reflexivity.
      destruct (N.leb_spec t (N.max clk t)); [discriminate|lia].
    + unfold terminate, exit_status. cbn [clock child_exit log_call set_clock].
      rewrite E. cbn.
      eexists; split; [reflexivity|]. cbn.
      rewrite N.max_id, N.leb_refl, <- !app_assoc.
      repeat split; try reflexivity. discriminate.
  - unfold terminate, exit_status. cbn.
    eexists; split; [reflexivity|]. cbn.
    rewrite N.max_id, N.leb_refl, <- !app_assoc.
    repeat split; try reflexivity. discriminate.
Qed.

Lemma same_terminal_trans (w1 w2 w3 : world) :
  same_terminal w1 w2 -> same_terminal w2 w3 -> same_terminal w1 w3.
Proof.
  unfold same_terminal. intros (a & b & c & d & e) (a' & b' & c' & d' & e').
  repeat split; congruence.
Qed.

Lemma shutdown_server_running (w : world) :
  exit_status w = None ->
  exists w',
    shutdown_server w = Done tt w' /\
    calls w' =
      (calls w ++ [StdinWrite ("stop" ++ nl); StdinFlush; Wait (Some 10%N)]
       ++ (if exits_within 10 w then [] else [Terminate; Wait None]))%list /\
    exit_status w' <> None /\
    stdin_received w' =
      (if stdin_closed w then stdin_received w
       else stdin_received w ++ stdin_pending w ++ "stop" ++ nl) /\
    same_terminal w w'.
Proof.
  intros Hrun.
  destruct (write_flush_guarded "stop" w)
    as (w1 & E1 & Hc1 & Hr1 & Hclk & Hce & Ht1).
  assert (Hrun1 : exit_status w1 = None)
    by (rewrite (exit_status_frame _ _ Hclk Hce); exact Hrun).
  destruct (wait_or_terminate w1 Hrun1) as (w2 & E2 & Hc2 & Hgone & Hr2 & Ht2).
  exists w2.
  split.
  { unfold shutdown_server, poll. unfold bind at 1. rewrite Hrun.
    unfold bind at 1. rewrite E1. exact E2. }
  split.
  { rewrite Hc2, Hc1, <- app_assoc. unfold exits_within.
    rewrite Hclk, Hce. reflexivity. }
  split; [exact Hgone|].
  split.
  { rewrite Hr2, Hr1. unfold pipe_broken. rewrite Hrun, orb_false_r.
    reflexivity. }
  exact (same_terminal_trans _ _ _ Ht1 Ht2).
Qed.

Lemma shutdown_server_exited (w : world) (c : Z) :
  exit_status w = Some c -> shutdown_server w = Done tt w.
Proof.
  intros H. unfold shutdown_server, bind, poll. rewrite H. reflexivity.
Qed.

End Shutdown.

(** [C2] On a child that is still running, [shutdown_server] returns after
    making exactly these calls, in this order: write the line [stop] to the
    child's input, flush it, wait with a timeout of 10 seconds and, only when
    the child is not gone within these 10 seconds, terminate it and wait
    without a timeout.  Afterwards the child is gone, and a child that kept
    its input open has received the line [stop]. *)
Theorem shutdown_server_sequence (w : world) :
  exit_status w = None ->
  exists w',
    shutdown_server w = Done tt w' /\
    calls w' =
      (calls w ++ [StdinWrite ("stop" ++ nl); StdinFlush; Wait (Some 10%N)]
       ++ (if exits_within 10 w then [] else [Terminate; Wait None]))%list /\
    exit_status w' <> None /\
    (stdin_closed w = false ->
     stdin_received w' = stdin_received w ++ stdin_pending w ++ "stop" ++ nl).
Proof.
  intros Hrun.
  destruct (shutdown_server_running w Hrun)
    as (w' & Hrun' & Hcalls & Hgone & Hrecv & _).
  exists w'. repeat split; try assumption.
  intros Hopen. rewrite Hrecv, Hopen. reflexivity.
Qed.

Lemma shutdown_server_sequence_witness :
  exit_status server_up = None /\
  exists w',
    shutdown_server server_up = Done tt w' /\
    calls w' =
      (calls server_up
       ++ [StdinWrite ("stop" ++ nl); StdinFlush; Wait (Some 10%N)]
       ++ (if exits_within 10 server_up then [] else [Terminate; Wait None]))%list /\
    exit_status w' <> None /\
    (stdin_closed server_up = false ->
     stdin_received w' =
       stdin_received server_up ++ stdin_pending server_up ++ "stop" ++ nl).
Proof.
  split; [reflexivity | apply (shutdown_server_sequence server_up); reflexivity].
Defined.

(** [C3] On a child that has already exited, [shutdown_server] returns
    without an exception and leaves the whole world as it was (so nothing is
    written to the child's input), and so does calling it twice in a row. *)
Theorem shutdown_server_idempotent (w : world) (c : Z) :
  exit_status w = Some c ->
  shutdown_server w = Done tt w /\
  (shutdown_server ;; shutdown_server) w = Done tt w.
Proof.
  intros H. pose proof (shutdown_server_exited w c H) as E.
  split; [exact E|]. unfold bind. rewrite E. exact E.
Qed.

Lemma shutdown_server_idempotent_witness :
  exit_status server_gone = Some 0%Z /\
  shutdown_server server_gone = Done tt server_gone /\
  (shutdown_server ;; shutdown_server) server_gone = Done tt server_gone.
Proof.
  split; [reflexivity|].
  apply (shutdown_server_idempotent server_gone 0%Z). reflexivity.
Defined.

(** ** The command interpreter *)

Section Interpreter.

Lemma bind_seq {A B C : Type} (m : M A) (k : M B) (h : M C) (w : world) :
  (m ;; k ;; h) w = ((m ;; k) ;; h) w.
Proof. unfold bind. destruct (m w); reflexivity. Qed.

(** A line written and flushed to a child that reads its input. *)
Lemma write_flush_open (s : string) (w : world) :
  pipe_broken w = false -> stdin_pending w = "" ->
  exists w',
    (stdin_write (s ++ nl) ;; stdin_flush) w = Done tt w' /\
    stdin_received w' = stdin_received w ++ s ++ nl /\
    stdin_pending w' = "" /\
    calls w' = (calls w ++ [StdinWrite (s ++ nl); StdinFlush])%list /\
    clock w' = clock w /\ child_exit w' = child_exit w /\
    same_terminal w w'.
Proof.
  intros Hopen Hpend.
  unfold bind, stdin_write, stdin_flush.
  cbn [stdin_pending set_stdin_pending log_call].
  rewrite line_not_empty.
  replace (pipe_broken _) with (pipe_broken w) by reflexivity.
  rewrite Hopen, Hpend.
  eexists; split; [reflexivity|]. cbn.
  rewrite <- app_assoc. unfold same_terminal. repeat split; reflexivity.
Qed.

(** The same to a pipe nobody reads: the flush raises. *)
Lemma write_flush_broken (s : string) (w : world) :
  pipe_broken w = true ->
  exists w',
    (stdin_write (s ++ nl) ;; stdin_flush) w = Raised BrokenPipeError w' /\
    stdin_received w' = stdin_received w /\
    pipe_broken w' = true.
Proof.
  intros Hbroken.
  unfold bind, stdin_write, stdin_flush.
  cbn [stdin_pending set_stdin_pending log_call].
  rewrite line_not_empty.
  replace (pipe_broken _) with (pipe_broken w) by reflexivity.
  rewrite Hbroken.
  eexists; repeat split. exact Hbroken.
Qed.

Lemma pipe_open (w : world) :
  exit_status w = None -> stdin_closed w = false -> pipe_broken w = false.
Proof. unfold pipe_broken. intros -> ->. reflexivity. Qed.

Lemma dispatch_exit (u : string) (w : world) :
  lower u = "exit" -> dispatch u w = (shutdown_server ;; ret Break) w.
Proof. unfold dispatch. intros ->. reflexivity. Qed.

Lemma fakelog_is_not_exit (message : string) :
  String.eqb (lower ("fakelog " ++ message)) "exit" = false.
Proof. reflexivity. Qed.

Lemma dispatch_fakelog (message : string) (w : world) :
  dispatch ("fakelog " ++ message) w =
  Done Next
    (set_console
       (console w
        ++ [("[" ++ Clock.strftime_HMS (clock w) ++ " INFO]: " ++ message)%string])%list
       w).
Proof.
  unfold dispatch. rewrite fakelog_is_not_exit.
  reflexivity.
Qed.

(** A line that is no command of the wrapper goes to a running child that
    reads its input. *)
Lemma dispatch_forward (u : string) (w : world) :
  lower u <> "exit" -> startswith u "fakelog " = false ->
  exit_status w = None -> stdin_closed w = false -> stdin_pending w = "" ->
  exists w',
    dispatch u w = Done Next w' /\
    stdin_received w' = stdin_received w ++ u ++ nl /\
    stdin_pending w' = "" /\
    calls w' = (calls w ++ [StdinWrite (u ++ nl); StdinFlush])%list /\
    exit_status w' = None /\
    same_terminal w w'.
Proof.
  intros Hexit Hfake Hrun Hopen Hpend.
  destruct (write_flush_open u w (pipe_open w Hrun Hopen) Hpend)
    as (w' & E & Hr & Hp & Hc & Hclk & Hce & Ht).
  exists w'. split.
  { unfold dispatch. apply String.eqb_neq in Hexit. rewrite Hexit, Hfake.
    unfold poll. unfold bind at 1. rewrite Hrun.
    rewrite bind_seq. unfold bind at 1. rewrite E. reflexivity. }
  repeat split; try assumption; try apply Ht.
  rewrite (exit_status_frame _ _ Hclk Hce). exact Hrun.
Qed.

(** The same line with the child gone is dropped. *)
Lemma dispatch_drop (u : string) (w : world) (c : Z) :
  lower u <> "exit" -> startswith u "fakelog " = false ->
  exit_status w = Some c ->
  dispatch u w = Done Next w.
Proof.
  intros Hexit Hfake Hgone.
  unfold dispatch. apply String.eqb_neq in Hexit. rewrite Hexit, Hfake.
  unfold bind, poll. rewrite Hgone. reflexivity.
Qed.

(** One turn of the loop with the child running and a line in the queue. *)
Lemma loop_body_dequeue (u : string) (q : list string) (w : world) :
  exit_status w = None -> sigint w = false -> input_queue w = u :: q ->
  loop_body w = dispatch u (set_input_queue q w).
Proof.
  intros Hrun Hsig Hq.
  unfold loop_body, poll. unfold bind at 1. rewrite Hrun.
  unfold bind at 1. unfold try_except, bind, queue_get.
  rewrite Hsig, Hq. reflexivity.
Qed.

Lemma gone_is_broken (w : world) : exit_status w <> None -> pipe_broken w = true.
Proof.
  unfold pipe_broken. destruct (exit_status w); [|congruence].
  intros _. apply orb_true_r.
Qed.

Lemma shutdown_server_keeps_flushed (w : world) :
  flushed w -> ends_in (shutdown_server w) flushed.
Proof.
  intros Hw. destruct (exit_status w) as [c|] eqn:E.
  - rewrite (shutdown_server_exited w c E). exact Hw.
  - destruct (shutdown_server_running w E) as (w' & -> & _ & Hgone & _).
    cbn. intros Hopen. rewrite (gone_is_broken w' Hgone) in Hopen.
    discriminate.
Qed.

(** Whatever the main loop does with a line, it leaves nothing unflushed in
    front of a child that reads its input. *)
Lemma dispatch_keeps_flushed (u : string) (w : world) :
  flushed w -> ends_in (dispatch u w) flushed.
Proof.
  intros Hw. unfold dispatch.
  destruct (String.eqb (lower u) "exit").
  - pose proof (shutdown_server_keeps_flushed w Hw) as H.
    unfold bind. destruct (shutdown_server w); exact H.
  - destruct (startswith u "fakelog ").
    + cbn. exact Hw.
    + unfold poll. unfold bind at 1.
      destruct (exit_status w) as [c|] eqn:E; [exact Hw|].
      destruct (pipe_broken w) eqn:B.
      * destruct (write_flush_broken u w B) as (w' & Ew & _ & B').
        rewrite bind_seq. unfold bind at 1. rewrite Ew.
        cbn. intros Hopen. congruence.
      * destruct (write_flush_open u w B (Hw B)) as (w' & Ew & _ & Hp & _).
        rewrite bind_seq. unfold bind at 1. rewrite Ew.
        cbn. intros _. exact Hp.
Qed.

End Interpreter.

(** ** Trimming and matching *)

Section Trimming.

Lemma lstrip_spaces (ws s : string) :
  all_space ws = true -> lstrip (ws ++ s) = lstrip s.
Proof.
  induction ws as [|c ws IH]; cbn; [reflexivity|].
  intros H. apply andb_prop in H. destruct H as [Hc Hws].
  rewrite Hc. exact (IH Hws).
Qed.

Lemma rstrip_all_space (ws : string) :
  all_space ws = true -> rstrip ws = "".
Proof.
  induction ws as [|c ws IH]; cbn; [reflexivity|].
  intros H. apply andb_prop in H. destruct H as [Hc Hws].
  rewrite (IH Hws), Hc. reflexivity.
Qed.

Lemma rstrip_spaces (s ws : string) :
  all_space ws = true -> rstrip (s ++ ws) = rstrip s.
Proof.
  intros H. induction s as [|c s IH]; cbn.
  - exact (rstrip_all_space ws H).
  - rewrite IH. reflexivity.
Qed.

(** Trimming a text that neither starts nor ends with white space, padded
    with white space on both sides, gives the text back. *)
Lemma strip_padded (ws1 ws2 : string) (c : ascii) (r : string) :
  all_space ws1 = true -> all_space ws2 = true ->
  isspace c = false -> rstrip (String c r) = String c r ->
  strip (ws1 ++ String c r ++ ws2) = String c r.
Proof.
  intros H1 H2 Hc Hr. unfold strip.
  rewrite (lstrip_spaces _ _ H1).
  change (String c r ++ ws2) with (String c (r ++ ws2)).
  cbn [lstrip]. rewrite Hc.
  change (String c (r ++ ws2)) with (String c r ++ ws2).
  rewrite (rstrip_spaces _ _ H2). exact Hr.
Qed.

Lemma space_is_not_upper (c : ascii) : isspace c = true -> lower_char c = c.
Proof.
  destruct c as [[] [] [] [] [] [] [] []]; vm_compute;
    intros H; try reflexivity; discriminate H.
Qed.

(** Every spelling of [exit] is four characters that are no white space. *)
Lemma exit_spelling (x : string) :
  lower x = "exit" ->
  exists c r, x = String c r /\ isspace c = false /\ rstrip x = x.
Proof.
  destruct x as [|c1 [|c2 [|c3 [|c4 [|c5 x]]]]]; cbn; try discriminate.
  intros H. injection H as H1 H2 H3 H4.
  assert (N1 : isspace c1 = false).
  { destruct (isspace c1) eqn:E; [|reflexivity].
    rewrite (space_is_not_upper _ E) in H1. subst c1. discriminate E. }
  assert (N4 : isspace c4 = false).
  { destruct (isspace c4) eqn:E; [|reflexivity].
    rewrite (space_is_not_upper _ E) in H4. subst c4. discriminate E. }
  exists c1, (String c2 (String c3 (String c4 ""))).
  rewrite N4. repeat split. exact N1.
Qed.

Lemma strip_exit (ws1 ws2 x : string) :
  all_space ws1 = true -> all_space ws2 = true -> lower x = "exit" ->
  strip (ws1 ++ x ++ ws2) = x.
Proof.
  intros H1 H2 Hx.
  destruct (exit_spelling x Hx) as (c & r & -> & Hc & Hr).
  exact (strip_padded ws1 ws2 c r H1 H2 Hc Hr).
Qed.

Lemma strip_fakelog (ws1 ws2 : string) :
  all_space ws1 = true -> all_space ws2 = true ->
  strip (ws1 ++ "fakelog" ++ ws2) = "fakelog".
Proof.
  intros H1 H2.
  exact (strip_padded ws1 ws2 "f" "akelog" H1 H2 eq_refl eq_refl).
Qed.

Lemma startswith_slice (p u : string) :
  startswith u p = true -> slice_to (String.length p) u = p.
Proof.
  revert u. induction p as [|a p IH]; intros u; cbn; [reflexivity|].
  destruct u as [|b u]; [discriminate|].
  intros H. apply andb_prop in H. destruct H as [Hab Hp].
  apply Ascii.eqb_eq in Hab. subst b. rewrite (IH u Hp). reflexivity.
Qed.

(** A line that begins with [fakelog ] in some other spelling is neither
    [exit] nor a [fakelog] line. *)
Lemma other_spelling (u : string) :
  lower (slice_to 8 u) = "fakelog " -> slice_to 8 u <> "fakelog " ->
  lower u <> "exit" /\ startswith u "fakelog " = false.
Proof.
  intros Hl Hne. split.
  - destruct u as [|c u]; cbn in *; [discriminate|].
    injection Hl as Hc _. rewrite Hc. discriminate.
  - destruct (startswith u "fakelog ") eqn:E; [|reflexivity].
    elim Hne. exact (startswith_slice "fakelog " u E).
Qed.

End Trimming.

(** ** The main loop *)

Section MainLoop.

Lemma exit_status_stays (w w' : world) (c : Z) :
  child_exit w' = child_exit w -> (clock w <= clock w')%N ->
  exit_status w = Some c -> exit_status w' = Some c.
Proof.
  unfold exit_status. intros -> Hle.
  destruct (child_exit w) as [[t c']|]; [|discriminate].
  destruct (N.leb_spec t (clock w)) as [Ht|Ht]; [|discriminate].
  intros Hc. destruct (N.leb_spec t (clock w')) as [Ht'|Ht']; [exact Hc|lia].
Qed.

(** The [finally] clause when the child is gone: the flag is set, the
    capture task is joined and the terminal input is closed. *)
Lemma main_finally_gone (w : world) :
  exit_status w <> None ->
  main_finally w =
  Done tt (set_tty_closed true (set_clock (clock w + 1) (set_stop_event true w))).
Proof.
  intros Hgone. destruct (exit_status w) as [c|] eqn:E; [|congruence].
  unfold main_finally, stop_event_set, join_input_thread, poll.
  unfold bind at 1. unfold bind at 1. unfold bind at 1. unfold bind at 1.
  rewrite (exit_status_stays w
             (set_clock (clock (set_stop_event true w) + 1)
                (set_stop_event true w)) c); [reflexivity|reflexivity| |exact E].
  cbn. lia.
Qed.

Lemma startswith_split (p u : string) :
  startswith u p = true -> u = p ++ slice_from (String.length p) u.
Proof.
  revert u. induction p as [|a p IH]; intros u; cbn; [reflexivity|].
  destruct u as [|b u]; [discriminate|].
  intros H. apply andb_prop in H. destruct H as [Hab Hp].
  apply Ascii.eqb_eq in Hab. subst b. rewrite <- (IH u Hp). reflexivity.
Qed.

End MainLoop.

(** [C1] When the main loop, with the child running, dequeues a line whose
    trimmed text is [exit] in any letter case, this turn of the loop is a
    call of [shutdown_server] followed by leaving the loop; [main] then
    returns, the only calls made on the child are those of the shutdown
    sequence, the child is gone, and the lines captured after it are still
    in the queue: none is forwarded. *)
Theorem exit_command_stops (raw : string) (q : list string) (w : world)
    (fuel : nat) :
  lower (strip raw) = "exit" ->
  exit_status w = None -> sigint w = false ->
  input_queue w = strip raw :: q ->
  loop_body w = (shutdown_server ;; ret Break) (set_input_queue q w) /\
  exists w',
    main (S fuel) w = Done tt w' /\
    calls w' =
      (calls w ++ [StdinWrite ("stop" ++ nl); StdinFlush; Wait (Some 10%N)]
       ++ (if exits_within 10 w then [] else [Terminate; Wait None]))%list /\
    stdin_received w' =
      (if stdin_closed w then stdin_received w
       else stdin_received w ++ stdin_pending w ++ "stop" ++ nl) /\
    input_queue w' = q /\
    exit_status w' <> None /\
    stop_event w' = true.
Proof.
  intros Hexit Hrun Hsig Hq.
  assert (Hbody : loop_body w =
                  (shutdown_server ;; ret Break) (set_input_queue q w)).
  { rewrite (loop_body_dequeue (strip raw) q w Hrun Hsig Hq).
    apply dispatch_exit. exact Hexit. }
  split; [exact Hbody|].
  destruct (shutdown_server_running (set_input_queue q w) Hrun)
    as (w1 & E1 & Hc1 & Hgone1 & Hr1 & Ht1).
  destruct Ht1 as (_ & Hq1 & _).
  eexists. split.
  { unfold main, try_finally, try_except.
    cbn [main_loop]. unfold bind at 1. rewrite Hbody.
    unfold bind at 1. rewrite E1. cbn [ret].
    rewrite (main_finally_gone w1 Hgone1). reflexivity. }
  cbn [calls input_queue stop_event stdin_received
       set_tty_closed set_clock set_stop_event].
  split; [exact Hc1|]. split; [exact Hr1|]. split; [exact Hq1|].
  split; [|reflexivity].
  destruct (exit_status w1) as [c|] eqn:E; [|congruence].
  rewrite (exit_status_stays w1
             (set_tty_closed true
                (set_clock (clock w1 + 1) (set_stop_event true w1))) c);
    [discriminate|reflexivity| |exact E].
  cbn. lia.
Qed.

Lemma exit_command_stops_witness :
  lower (strip (" Exit " ++ nl)) = "exit" /\
  exit_status (typed ["Exit"; "say hi"] server_up) = None /\
  sigint (typed ["Exit"; "say hi"] server_up) = false /\
  input_queue (typed ["Exit"; "say hi"] server_up)
  = strip (" Exit " ++ nl) :: ["say hi"] /\
  loop_body (typed ["Exit"; "say hi"] server_up)
  = (shutdown_server ;; ret Break)
      (set_input_queue ["say hi"] (typed ["Exit"; "say hi"] server_up)) /\
  exists w',
    main 1 (typed ["Exit"; "say hi"] server_up) = Done tt w' /\
    calls w' =
      (calls (typed ["Exit"; "say hi"] server_up)
       ++ [StdinWrite ("stop" ++ nl); StdinFlush; Wait (Some 10%N)]
       ++ (if exits_within 10 (typed ["Exit"; "say hi"] server_up)
           then [] else [Terminate; Wait None]))%list /\
    stdin_received w' =
      (if stdin_closed (typed ["Exit"; "say hi"] server_up)
       then stdin_received (typed ["Exit"; "say hi"] server_up)
       else stdin_received (typed ["Exit"; "say hi"] server_up)
            ++ stdin_pending (typed ["Exit"; "say hi"] server_up)
            ++ "stop" ++ nl) /\
    input_queue w' = ["say hi"] /\
    exit_status w' <> None /\
    stop_event w' = true.
Proof.
  repeat (split; [reflexivity|]).
  apply (exit_command_stops (" Exit " ++ nl) ["say hi"]
           (typed ["Exit"; "say hi"] server_up) 0); reflexivity.
Defined.

(** [C5] A dequeued line that starts with [fakelog ] makes the main loop
    print exactly [[HH:MM:SS INFO]: message], where [message] is the line
    after the prefix and [HH:MM:SS] the time of the clock; the loop goes on,
    and nothing is written to the child's input. *)
Theorem fakelog_prints_locally (user_input : string) (w : world) :
  startswith user_input "fakelog " = true ->
  user_input = "fakelog " ++ slice_from 8 user_input /\
  exists w',
    dispatch user_input w = Done Next w' /\
    console w' =
      (console w
       ++ [("[" ++ Clock.strftime_HMS (clock w) ++ " INFO]: "
            ++ slice_from 8 user_input)%string])%list /\
    stdin_received w' = stdin_received w /\
    stdin_pending w' = stdin_pending w /\
    calls w' = calls w.
Proof.
  intros H. pose proof (startswith_split "fakelog " user_input H) as E.
  split; [exact E|].
  eexists. split.
  { rewrite E at 1. apply dispatch_fakelog. }
  repeat split; reflexivity.
Qed.

Lemma fakelog_prints_locally_witness :
  startswith "fakelog Server ready" "fakelog " = true /\
  "fakelog Server ready" = "fakelog " ++ slice_from 8 "fakelog Server ready" /\
  exists w',
    dispatch "fakelog Server ready" server_up = Done Next w' /\
    console w' =
      (console server_up
       ++ [("[" ++ Clock.strftime_HMS (clock server_up) ++ " INFO]: "
            ++ slice_from 8 "fakelog Server ready")%string])%list /\
    stdin_received w' = stdin_received server_up /\
    stdin_pending w' = stdin_pending server_up /\
    calls w' = calls server_up.
Proof.
  split; [reflexivity|].
  apply (fakelog_prints_locally "fakelog Server ready" server_up).
  reflexivity.
Defined.

(** The scenario of the specification: [fakelog Server ready] at 10:15:07. *)
Example fakelog_scenario :
  dispatch "fakelog Server ready" server_up
  = Done Next (set_console ["[10:15:07 INFO]: Server ready"] server_up).
Proof. vm_compute. reflexivity. Qed.

(** [C6] A dequeued line that is neither [exit] in any letter case nor a
    [fakelog ] line: with the child running and reading its input, the child
    receives exactly the line and one newline, written and flushed, nothing
    is printed and no shutdown starts; with the child gone, the line is
    dropped, the world stays as it was and no exception is raised. *)
Theorem other_line_is_forwarded (user_input : string) (w : world) :
  lower user_input <> "exit" ->
  startswith user_input "fakelog " = false ->
  (exit_status w = None -> stdin_closed w = false -> stdin_pending w = "" ->
   exists w',
     dispatch user_input w = Done Next w' /\
     stdin_received w' = stdin_received w ++ user_input ++ nl /\
     calls w' =
       (calls w ++ [StdinWrite (user_input ++ nl); StdinFlush])%list /\
     console w' = console w /\
     exit_status w' = None) /\
  (forall c, exit_status w = Some c -> dispatch user_input w = Done Next w).
Proof.
  intros Hexit Hfake. split.
  - intros Hrun Hopen Hpend.
    destruct (dispatch_forward user_input w Hexit Hfake Hrun Hopen Hpend)
      as (w' & E & Hr & _ & Hc & Hs & Ht).
    exists w'. repeat split; try assumption. apply Ht.
  - intros c Hgone. exact (dispatch_drop user_input w c Hexit Hfake Hgone).
Qed.

Lemma other_line_is_forwarded_witness :
  lower "say hi" <> "exit" /\
  startswith "say hi" "fakelog " = false /\
  (exists w',
     dispatch "say hi" server_up = Done Next w' /\
     stdin_received w' = stdin_received server_up ++ "say hi" ++ nl /\
     calls w' =
       (calls server_up ++ [StdinWrite ("say hi" ++ nl); StdinFlush])%list /\
     console w' = console server_up /\
     exit_status w' = None) /\
  dispatch "say hi" server_gone = Done Next server_gone.
Proof.
  assert (H1 : lower "say hi" <> "exit") by discriminate.
  assert (H2 : startswith "say hi" "fakelog " = false) by reflexivity.
  split; [exact H1|]. split; [exact H2|].
  destruct (other_line_is_forwarded "say hi" server_up H1 H2) as [Hfwd _].
  destruct (other_line_is_forwarded "say hi" server_gone H1 H2) as [_ Hdrop].
  split.
  - apply Hfwd; reflexivity.
  - apply (Hdrop 0%Z). reflexivity.
Defined.

(** [C9] A dequeued line whose first eight characters spell [fakelog ] in
    another letter case than all lower case is not treated as a [fakelog]
    line: with the child running and reading its input, the line and one
    newline go to the child and nothing is printed. *)
Theorem fakelog_prefix_is_case_sensitive (user_input : string) (w : world) :
  lower (slice_to 8 user_input) = "fakelog " ->
  slice_to 8 user_input <> "fakelog " ->
  exit_status w = None -> stdin_closed w = false -> stdin_pending w = "" ->
  startswith user_input "fakelog " = false /\
  exists w',
    dispatch user_input w = Done Next w' /\
    stdin_received w' = stdin_received w ++ user_input ++ nl /\
    calls w' = (calls w ++ [StdinWrite (user_input ++ nl); StdinFlush])%list /\
    console w' = console w.
Proof.
  intros Hl Hne Hrun Hopen Hpend.
  destruct (other_spelling user_input Hl Hne) as [Hexit Hfake].
  split; [exact Hfake|].
  destruct (dispatch_forward user_input w Hexit Hfake Hrun Hopen Hpend)
    as (w' & E & Hr & _ & Hc & _ & Ht).
  exists w'. repeat split; try assumption. apply Ht.
Qed.

Lemma fakelog_prefix_is_case_sensitive_witness :
  lower (slice_to 8 "Fakelog hello") = "fakelog " /\
  slice_to 8 "Fakelog hello" <> "fakelog " /\
  exit_status server_up = None /\
  stdin_closed server_up = false /\
  stdin_pending server_up = "" /\
  startswith "Fakelog hello" "fakelog " = false /\
  exists w',
    dispatch "Fakelog hello" server_up = Done Next w' /\
    stdin_received w' = stdin_received server_up ++ "Fakelog hello" ++ nl /\
    calls w' =
      (calls server_up ++ [StdinWrite ("Fakelog hello" ++ nl); StdinFlush])%list /\
    console w' = console server_up.
Proof.
  assert (H2 : slice_to 8 "Fakelog hello" <> "fakelog ") by discriminate.
  split; [reflexivity|]. split; [exact H2|].
  repeat (split; [reflexivity|]).
  apply (fakelog_prefix_is_case_sensitive "Fakelog hello" server_up);
    try reflexivity.
  exact H2.
Defined.

(** ** Input capture *)

Section Capture.

(** One line read by the capture task while the flag is unset: its trimmed
    text is put on the queue and the task reads on. *)
Lemma input_thread_line (line : string) (rest : stream) (w : world) :
  stop_event w = false -> line <> "" ->
  input_thread (Data line :: rest) w =
  input_thread rest (set_input_queue (input_queue w ++ [strip line])%list w).
Proof.
  intros Hstop Hline. apply String.eqb_neq in Hline.
  cbn [input_thread]. unfold stop_event_is_set. unfold bind at 1.
  rewrite Hstop, Hline. reflexivity.
Qed.

(** No exception of the class [Exception] leaves the capture task. *)
Lemma input_thread_returns (stdin : stream) (w : world) :
  forallb fails_with_Exception stdin = true ->
  exists w', input_thread stdin w = Done tt w'.
Proof.
  revert w. induction stdin as [|ev rest IH]; intros w H;
    cbn [input_thread]; unfold stop_event_is_set; unfold bind at 1;
    destruct (stop_event w); try (eexists; reflexivity).
  cbn in H. apply andb_prop in H. destruct H as [Hev Hrest].
  destruct ev as [|line|e|e].
  - exact (IH w Hrest).
  - destruct (String.eqb line ""); [eexists; reflexivity|].
    unfold bind, queue_put. exact (IH _ Hrest).
  - cbn in Hev. unfold try_except, raise, ret. rewrite Hev.
    eexists; reflexivity.
  - cbn in Hev. unfold try_except, raise, ret. rewrite Hev.
    eexists; reflexivity.
Qed.

Lemma padded_not_empty (ws1 ws2 : string) (c : ascii) (r : string) :
  ws1 ++ String c r ++ ws2 <> "".
Proof. destruct ws1; discriminate. Qed.

Lemma set_input_queue_same (w : world) : set_input_queue (input_queue w) w = w.
Proof. destruct w; reflexivity. Qed.

(** The capture task on an orderly terminal. *)
Lemma input_thread_orderly (stdin : stream) :
  forall w,
    stop_event w = false -> orderly stdin = true ->
    input_thread stdin w =
    Done tt (set_input_queue (input_queue w ++ map strip (lines_of stdin))%list w).
Proof.
  induction stdin as [|ev rest IH]; intros w Hstop H.
  - cbn. unfold bind, stop_event_is_set. rewrite Hstop.
    rewrite app_nil_r, set_input_queue_same. reflexivity.
  - cbn in H. apply andb_prop in H. destruct H as [Hev Hrest].
    destruct ev as [|line|e|e]; try discriminate Hev.
    + cbn [input_thread lines_of]. unfold stop_event_is_set. unfold bind at 1.
      rewrite Hstop. exact (IH w Hstop Hrest).
    + apply negb_true_iff in Hev. apply String.eqb_neq in Hev.
      rewrite (input_thread_line line rest w Hstop Hev).
      rewrite (IH (set_input_queue (input_queue w ++ [strip line])%list w)
                 Hstop Hrest).
      cbn [input_queue set_input_queue lines_of map].
      rewrite <- app_assoc. reflexivity.
Qed.

(** The capture task on a first line and an orderly rest, with nothing
    queued before. *)
Lemma capture_head (line : string) (rest : stream) (w : world) :
  stop_event w = false -> input_queue w = [] ->
  line <> "" -> orderly rest = true ->
  input_thread (Data line :: rest) w =
  Done tt (set_input_queue (strip line :: map strip (lines_of rest)) w).
Proof.
  intros Hstop Hq Hline Hrest.
  rewrite (input_thread_orderly (Data line :: rest) w Hstop).
  - rewrite Hq. reflexivity.
  - cbn. apply String.eqb_neq in Hline. rewrite Hline. exact Hrest.
Qed.

(** A turn of the loop on a queue whose first line is no command of the
    wrapper. *)
Lemma loop_forwards_head (u : string) (q : list string) (w : world) :
  lower u <> "exit" -> startswith u "fakelog " = false ->
  exit_status w = None -> sigint w = false ->
  stdin_closed w = false -> stdin_pending w = "" ->
  exists w2,
    loop_body (set_input_queue (u :: q) w) = Done Next w2 /\
    stdin_received w2 = stdin_received w ++ u ++ nl /\
    calls w2 = (calls w ++ [StdinWrite (u ++ nl); StdinFlush])%list /\
    console w2 = console w /\
    input_queue w2 = q.
Proof.
  intros Hexit Hfake Hrun Hsig Hopen Hpend.
  rewrite (loop_body_dequeue u q (set_input_queue (u :: q) w) Hrun Hsig eq_refl).
  destruct (dispatch_forward u (set_input_queue q (set_input_queue (u :: q) w))
              Hexit Hfake Hrun Hopen Hpend)
    as (w2 & E & Hr & _ & Hc & _ & Hcon & Hq & _).
  exists w2. repeat split; assumption.
Qed.

(** [main] on a queue whose first line is [exit] in some letter case. *)
Lemma main_after_exit (x : string) (q : list string) (w : world) (fuel : nat) :
  lower x = "exit" -> exit_status w = None -> sigint w = false ->
  exists w',
    main (S fuel) (set_input_queue (x :: q) w) = Done tt w' /\
    calls w' =
      (calls w ++ [StdinWrite ("stop" ++ nl); StdinFlush; Wait (Some 10%N)]
       ++ (if exits_within 10 w then [] else [Terminate; Wait None]))%list /\
    input_queue w' = q /\
    exit_status w' <> None.
Proof.
  intros Hx Hrun Hsig.
  set (w0 := set_input_queue (x :: q) w).
  assert (Hbody : loop_body w0 =
                  (shutdown_server ;; ret Break) (set_input_queue q w0)).
  { rewrite (loop_body_dequeue x q w0 Hrun Hsig eq_refl).
    apply dispatch_exit. exact Hx. }
  destruct (shutdown_server_running (set_input_queue q w0) Hrun)
    as (w1 & E1 & Hc1 & Hgone1 & _ & _ & Hq1 & _).
  eexists. split.
  { unfold main, try_finally, try_except.
    cbn [main_loop]. unfold bind at 1. rewrite Hbody.
    unfold bind at 1. rewrite E1. cbn [ret].
    rewrite (main_finally_gone w1 Hgone1). reflexivity. }
  cbn [calls input_queue set_tty_closed set_clock set_stop_event].
  split; [exact Hc1|]. split; [exact Hq1|].
  destruct (exit_status w1) as [c|] eqn:E; [|congruence].
  rewrite (exit_status_stays w1
             (set_tty_closed true
                (set_clock (clock w1 + 1) (set_stop_event true w1))) c);
    [discriminate|reflexivity| |exact E].
  cbn. lia.
Qed.

End Capture.

(** [C10] A line typed as the word [fakelog] with only white space around it
    is trimmed by the capture task, which queues the bare word [fakelog] and
    returns at the end of the input; the word is no [fakelog ] line, and the
    next turn of the main loop, with the child running and reading its
    input, forwards it as [fakelog] and a newline and prints nothing.  A line
    typed as [exit], in any letter case, with only white space around it is
    queued as that word; the next turn of the main loop is the shutdown
    sequence followed by leaving the loop, and [main] returns having made
    only the calls of that sequence, with the child gone and the lines typed
    later left in the queue. *)
Theorem lines_are_trimmed_first (ws1 ws2 x : string) (rest : stream)
    (w : world) (fuel : nat) :
  all_space ws1 = true -> all_space ws2 = true -> lower x = "exit" ->
  orderly rest = true ->
  stop_event w = false -> input_queue w = [] ->
  exit_status w = None -> sigint w = false ->
  (input_thread (Data (ws1 ++ "fakelog" ++ ws2) :: rest) w =
   Done tt (set_input_queue ("fakelog" :: map strip (lines_of rest)) w) /\
   startswith "fakelog" "fakelog " = false /\
   (stdin_closed w = false -> stdin_pending w = "" ->
    exists w2,
      loop_body (set_input_queue ("fakelog" :: map strip (lines_of rest)) w)
      = Done Next w2 /\
      stdin_received w2 = stdin_received w ++ "fakelog" ++ nl /\
      calls w2 = (calls w ++ [StdinWrite ("fakelog" ++ nl); StdinFlush])%list /\
      console w2 = console w /\
      input_queue w2 = map strip (lines_of rest))) /\
  (input_thread (Data (ws1 ++ x ++ ws2) :: rest) w =
   Done tt (set_input_queue (x :: map strip (lines_of rest)) w) /\
   loop_body (set_input_queue (x :: map strip (lines_of rest)) w) =
   (shutdown_server ;; ret Break)
     (set_input_queue (map strip (lines_of rest)) w) /\
   exists w',
     main (S fuel) (set_input_queue (x :: map strip (lines_of rest)) w)
     = Done tt w' /\
     calls w' =
       (calls w ++ [StdinWrite ("stop" ++ nl); StdinFlush; Wait (Some 10%N)]
        ++ (if exits_within 10 w then [] else [Terminate; Wait None]))%list /\
     input_queue w' = map strip (lines_of rest) /\
     exit_status w' <> None).
Proof.
  intros H1 H2 Hx Hrest Hstop Hq Hrun Hsig. split; [split; [|split]|split; [|split]].
  - rewrite (capture_head (ws1 ++ "fakelog" ++ ws2) rest w Hstop Hq
               (padded_not_empty ws1 ws2 "f" "akelog") Hrest).
    rewrite (strip_fakelog ws1 ws2 H1 H2). reflexivity.
  - reflexivity.
  - intros Hopen Hpend.
    assert (Hexit : lower "fakelog" <> "exit") by discriminate.
    exact (loop_forwards_head "fakelog" (map strip (lines_of rest)) w
             Hexit eq_refl Hrun Hsig Hopen Hpend).
  - destruct (exit_spelling x Hx) as (c & r & Ex & _).
    assert (Hne : ws1 ++ x ++ ws2 <> "")
      by (rewrite Ex; apply padded_not_empty).
    rewrite (capture_head (ws1 ++ x ++ ws2) rest w Hstop Hq Hne Hrest).
    rewrite (strip_exit ws1 ws2 x H1 H2 Hx). reflexivity.
  - rewrite (loop_body_dequeue x (map strip (lines_of rest))
               (set_input_queue (x :: map strip (lines_of rest)) w)
               Hrun Hsig eq_refl).
    apply dispatch_exit. exact Hx.
  - exact (main_after_exit x (map strip (lines_of rest)) w fuel Hx Hrun Hsig).
Qed.

Lemma lines_are_trimmed_first_witness :
  all_space " " = true /\ all_space ("  " ++ nl) = true /\
  lower "Exit" = "exit" /\
  orderly [Data (" list" ++ nl)] = true /\
  stop_event server_up = false /\ input_queue server_up = [] /\
  exit_status server_up = None /\ sigint server_up = false /\
  input_thread [Data (" " ++ "fakelog" ++ "  " ++ nl); Data (" list" ++ nl)]
    server_up
  = Done tt (set_input_queue ["fakelog"; "list"] server_up) /\
  (exists w2,
     loop_body (set_input_queue ["fakelog"; "list"] server_up) = Done Next w2 /\
     stdin_received w2 = "fakelog" ++ nl /\
     console w2 = [] /\
     input_queue w2 = ["list"]) /\
  input_thread [Data (" " ++ "Exit" ++ "  " ++ nl); Data (" list" ++ nl)]
    server_up
  = Done tt (set_input_queue ["Exit"; "list"] server_up) /\
  exists w',
    main 1 (set_input_queue ["Exit"; "list"] server_up) = Done tt w' /\
    calls w' = [StdinWrite ("stop" ++ nl); StdinFlush; Wait (Some 10%N);
                Terminate; Wait None] /\
    input_queue w' = ["list"] /\
    exit_status w' <> None.
Proof.
  do 8 (split; [reflexivity|]).
  destruct (lines_are_trimmed_first " " ("  " ++ nl) "Exit"
              [Data (" list" ++ nl)] server_up 0
              eq_refl eq_refl eq_refl eq_refl eq_refl eq_refl eq_refl eq_refl)
    as ((Hcap & _ & Hfwd) & (Hcap' & _ & Hmain)).
  split; [exact Hcap|].
  split.
  { destruct (Hfwd eq_refl eq_refl) as (w2 & E & Hr & _ & Hc & Hq).
    exists w2. repeat split; assumption. }
  split; [exact Hcap'|].
  destruct Hmain as (w' & E & Hc & Hq & Hg).
  exists w'. repeat split; assumption.
Defined.

(** [C7] The write of a forwarded line is not guarded in the main loop: with
    a child that is running but has closed its input, the line [say hi] makes
    [main] end with [BrokenPipeError] raised, whereas [shutdown_server] in
    the same world swallows the failure of its own write and returns. *)
Theorem forwarded_write_failure_escapes :
  (forall fuel, exists w',
      main (S fuel) (typed ["say hi"] server_deaf) = Raised BrokenPipeError w') /\
  (exists w', dispatch "say hi" server_deaf = Raised BrokenPipeError w') /\
  (exists w', shutdown_server server_deaf = Done tt w').
Proof.
  split; [|split].
  - intros fuel. eexists. vm_compute. reflexivity.
  - eexists. vm_compute. reflexivity.
  - eexists. vm_compute. reflexivity.
Qed.

(** ** The output relay *)

Section Relay.

Lemma set_console_same (w : world) : set_console (console w) w = w.
Proof. destruct w; reflexivity. Qed.

(** An orderly pipe is relayed line by line, each line printed once, in
    order, trimmed on the right. *)
Lemma read_output_orderly (pipe : stream) :
  forall w,
    orderly pipe = true ->
    read_output pipe handle_output w =
    Done tt (set_console (console w ++ map rstrip (lines_of pipe))%list w).
Proof.
  induction pipe as [|ev rest IH]; intros w H.
  - cbn. rewrite app_nil_r, set_console_same. reflexivity.
  - cbn in H. apply andb_prop in H. destruct H as [Hev Hrest].
    destruct ev as [|line|e|e]; try discriminate Hev.
    + cbn [read_output lines_of]. exact (IH w Hrest).
    + cbn [read_output lines_of map].
      apply negb_true_iff in Hev. rewrite Hev.
      unfold bind, handle_output, print.
      rewrite (IH _ Hrest). cbn [console set_console].
      rewrite <- app_assoc. reflexivity.
Qed.

End Relay.

(** [C4], as the code has it: the relay prints every line of an orderly pipe
    exactly once and in the order of the pipe, each with the white space at
    its end removed: the line terminator and any blanks or tabs before it. *)
Theorem relay_prints_trimmed_lines (pipe : stream) (w : world) :
  orderly pipe = true ->
  read_output pipe handle_output w =
  Done tt (set_console (console w ++ map rstrip (lines_of pipe))%list w).
Proof. exact (read_output_orderly pipe w). Qed.

Lemma relay_prints_trimmed_lines_witness :
  orderly [Data ("Done (3.2s)!" ++ nl); Quiet; Data ("   at Foo.bar " ++ nl)]
  = true /\
  read_output
    [Data ("Done (3.2s)!" ++ nl); Quiet; Data ("   at Foo.bar " ++ nl)]
    handle_output server_up =
  Done tt
    (set_console
       (console server_up
        ++ map rstrip
             (lines_of [Data ("Done (3.2s)!" ++ nl); Quiet;
                        Data ("   at Foo.bar " ++ nl)]))%list
       server_up).
Proof.
  split; [reflexivity|].
  apply (relay_prints_trimmed_lines
           [Data ("Done (3.2s)!" ++ nl); Quiet; Data ("   at Foo.bar " ++ nl)]
           server_up).
  reflexivity.
Defined.

(** [C4], as the claim has it, fails: a line that ends in a blank before its
    terminator is not printed verbatim, the blank is lost. *)
Lemma relay_is_not_verbatim :
  orderly [Data ("ready " ++ nl)] = true /\
  chomp ("ready " ++ nl) = "ready " /\
  exists w',
    read_output [Data ("ready " ++ nl)] handle_output server_up = Done tt w' /\
    console w' = ["ready"] /\
    console w' <> map chomp (lines_of [Data ("ready " ++ nl)]).
Proof.
  split; [reflexivity|]. split; [reflexivity|].
  eexists. split; [vm_compute; reflexivity|].
  split; [reflexivity|]. cbn. discriminate.
Qed.

(** [C8] Nothing in [read_output] catches an exception: when [select] or
    [readline] raises on the child's stream, the exception leaves the relay
    task, whatever it is; [input_thread] at the same event returns. *)
Theorem relay_failure_escapes (e : exn) (pipe : stream)
    (callback : string -> M unit) (w : world) :
  read_output (ReadFails e :: pipe) callback w = Raised e w /\
  read_output (SelectFails e :: pipe) callback w = Raised e w /\
  read_output [Data ("hello" ++ nl); ReadFails UnicodeDecodeError]
    handle_output server_up
  = Raised UnicodeDecodeError (set_console ["hello"] server_up) /\
  input_thread [Data ("hello" ++ nl); ReadFails UnicodeDecodeError] server_up
  = Done tt (set_input_queue ["hello"] server_up).
Proof.
  repeat split; reflexivity.
Qed.

(** * Further properties of the supervisor *)

(** ** Shutdown and the [finally] clause *)

Section Cleanup.

Lemma set_clock_same (w : world) : set_clock (clock w) w = w.
Proof. destruct w; reflexivity. Qed.

(** The [finally] clause from any world. *)
Lemma main_finally_ends (w : world) :
  exists w',
    main_finally w = Done tt w' /\
    stop_event w' = true /\ tty_closed w' = true /\
    exit_status w' <> None /\
    console w' = console w /\ input_queue w' = input_queue w.
Proof.
  set (w1 := set_clock (clock (set_stop_event true w) + 1)
              (set_stop_event true w)).
  destruct (exit_status w1) as [c|] eqn:E.
  - exists (set_tty_closed true w1). split.
    { unfold main_finally, stop_event_set, join_input_thread, poll.
      unfold bind at 1. unfold bind at 1. unfold bind at 1. unfold bind at 1.
      fold w1. rewrite E. reflexivity. }
    repeat split; try reflexivity.
    change (exit_status (set_tty_closed true w1)) with (exit_status w1).
    congruence.
  - destruct (shutdown_server_running w1 E)
      as (w2 & E2 & _ & Hgone & _ & Hc & Hq & Hs & _ & _).
    exists (set_tty_closed true w2). split.
    { unfold main_finally, stop_event_set, join_input_thread, poll.
      unfold bind at 1. unfold bind at 1. unfold bind at 1. unfold bind at 1.
      fold w1. rewrite E. rewrite E2. reflexivity. }
    split; [exact Hs|]. split; [reflexivity|].
    split; [exact Hgone|]. split; [exact Hc|exact Hq].
Qed.

End Cleanup.

(** [X2] In a run in which no interrupt arrives, however [main] ends, by
    returning or with the failure of a forwarded write propagating, the
    [finally] clause has run to its end: the stop flag for the capture task
    is set, the terminal input is closed and the child is gone. *)
Theorem main_cleans_up (fuel : nat) (w : world) :
  sigint w = false ->
  ends_in (main fuel w)
    (fun w' => stop_event w' = true /\ tty_closed w' = true /\
               exit_status w' <> None).
Proof.
  intros _. unfold main, try_finally.
  destruct (try_except (main_loop fuel) (only KeyboardInterrupt)
              (print closing_notice ;; shutdown_server) w) as [a w1|e w1|];
    [| |exact I];
    destruct (main_finally_ends w1) as (w' & -> & Hs & Ht & Hg & _);
    cbn; repeat split; assumption.
Qed.

Lemma main_cleans_up_witness :
  sigint (typed ["say hi"] server_deaf) = false /\
  (exists w', main 1 (typed ["say hi"] server_deaf) = Raised BrokenPipeError w') /\
  ends_in (main 1 (typed ["say hi"] server_deaf))
    (fun w' => stop_event w' = true /\ tty_closed w' = true /\
               exit_status w' <> None).
Proof.
  split; [reflexivity|]. split; [eexists; vm_compute; reflexivity|].
  apply (main_cleans_up 1 (typed ["say hi"] server_deaf)). reflexivity.
Defined.

(** ** The child exits by itself; the operator interrupts *)

Section Endings.

(** A turn of the loop with nothing to dequeue costs the 0.1 s of the
    timeout and changes nothing else. *)
Lemma loop_body_idle (w : world) :
  exit_status w = None -> sigint w = false -> input_queue w = [] ->
  loop_body w = Done Next (set_clock (clock w + 1) w).
Proof.
  intros Hrun Hsig Hq.
  unfold loop_body, poll. unfold bind at 1. rewrite Hrun.
  unfold bind at 1. unfold try_except, bind, queue_get.
  rewrite Hsig, Hq. reflexivity.
Qed.

Lemma loop_body_gone (w : world) (c : Z) :
  exit_status w = Some c -> loop_body w = Done Break w.
Proof.
  intros H. unfold loop_body, poll, bind. rewrite H. reflexivity.
Qed.

(** The loop polls an idle child until it is gone. *)
Lemma main_loop_idle (n : nat) :
  forall (w : world) (c : Z),
    input_queue w = [] -> sigint w = false ->
    child_exit w = Some ((clock w + N.of_nat n)%N, c) ->
    main_loop (S n) w = Done tt (set_clock (clock w + N.of_nat n) w).
Proof.
  induction n as [|n IH]; intros w c Hq Hsig Hexit.
  - assert (E : exit_status w = Some c).
    { unfold exit_status. rewrite Hexit. cbn [N.of_nat].
      rewrite N.add_0_r, N.leb_refl. reflexivity. }
    cbn [main_loop]. unfold bind. rewrite (loop_body_gone w c E).
    cbn [N.of_nat]. rewrite N.add_0_r, set_clock_same. reflexivity.
  - assert (E : exit_status w = None).
    { unfold exit_status. rewrite Hexit.
      destruct (N.leb_spec (clock w + N.of_nat (S n)) (clock w)); [lia|].
      reflexivity. }
    change (main_loop (S (S n)) w)
      with (bind loop_body (fun c0 => match c0 with
                                      | Break => ret tt
                                      | Next => main_loop (S n)
                                      end) w).
    unfold bind. rewrite (loop_body_idle w E Hsig Hq).
    rewrite (IH (set_clock (clock w + 1) w) c Hq Hsig).
    + cbn [clock set_clock].
      replace (clock w + 1 + N.of_nat n)%N with (clock w + N.of_nat (S n))%N
        by lia.
      reflexivity.
    + cbn [clock child_exit set_clock]. rewrite Hexit. f_equal. f_equal. lia.
Qed.

Lemma loop_body_interrupted (w : world) :
  exit_status w = None -> sigint w = true ->
  loop_body w = Raised KeyboardInterrupt (set_sigint false w).
Proof.
  intros Hrun Hsig.
  unfold loop_body, poll. unfold bind at 1. rewrite Hrun.
  unfold bind at 1. unfold try_except, bind, queue_get.
  rewrite Hsig. reflexivity.
Qed.

End Endings.

(** [X3] With nothing typed and no interrupt, [main] polls a child that
    exits by itself [n] tenths of a second from now once every 0.1 s, leaves
    the loop at the first poll that finds it gone, [n + 1] turns in all, and
    returns after the [finally] clause: nothing is written to the child, it
    is neither waited for nor terminated, and nothing is printed. *)
Theorem main_returns_when_child_exits (n : nat) (w : world) (c : Z) :
  input_queue w = [] -> sigint w = false ->
  child_exit w = Some ((clock w + N.of_nat n)%N, c) ->
  main (S n) w =
  Done tt (set_tty_closed true
             (set_clock (clock w + N.of_nat n + 1) (set_stop_event true w))).
Proof.
  intros Hq Hsig Hexit.
  unfold main, try_finally, try_except.
  rewrite (main_loop_idle n w c Hq Hsig Hexit).
  rewrite main_finally_gone; [reflexivity|].
  unfold exit_status. cbn [clock child_exit set_clock]. rewrite Hexit.
  rewrite N.leb_refl. discriminate.
Qed.

Lemma main_returns_when_child_exits_witness :
  input_queue crashing = [] /\ sigint crashing = false /\
  child_exit crashing = Some ((clock crashing + N.of_nat 3)%N, 1%Z) /\
  main 4 crashing =
  Done tt (set_tty_closed true
             (set_clock (clock crashing + N.of_nat 3 + 1)
                (set_stop_event true crashing))).
Proof.
  repeat (split; [reflexivity|]).
  apply (main_returns_when_child_exits 3 crashing 1%Z); reflexivity.
Defined.

(** [X4] An interrupt that reaches the main loop while the child runs makes
    [main] print the closing notice, run the shutdown sequence and return:
    the calls on the child are exactly those of the sequence, the child is
    gone, and the lines waiting in the queue are left there. *)
Theorem interrupt_shuts_down (fuel : nat) (w : world) :
  exit_status w = None -> sigint w = true ->
  exists w',
    main (S fuel) w = Done tt w' /\
    console w' = (console w ++ [closing_notice])%list /\
    calls w' =
      (calls w ++ [StdinWrite ("stop" ++ nl); StdinFlush; Wait (Some 10%N)]
       ++ (if exits_within 10 w then [] else [Terminate; Wait None]))%list /\
    input_queue w' = input_queue w /\
    sigint w' = false /\
    exit_status w' <> None.
Proof.
  intros Hrun Hsig.
  set (w1 := set_console (console (set_sigint false w) ++ [closing_notice])%list
               (set_sigint false w)).
  assert (Hrun1 : exit_status w1 = None) by exact Hrun.
  destruct (shutdown_server_running w1 Hrun1)
    as (w2 & E2 & Hc2 & Hgone2 & _ & Hcon & Hq & _ & Hi & _).
  eexists. split.
  { unfold main, try_finally, try_except.
    cbn [main_loop]. unfold bind at 1.
    rewrite (loop_body_interrupted w Hrun Hsig).
    cbn [only]. unfold bind at 1. unfold print at 1. fold w1.
    rewrite E2. rewrite (main_finally_gone w2 Hgone2). reflexivity. }
  cbn [calls input_queue console sigint set_tty_closed set_clock
       set_stop_event].
  split; [exact Hcon|]. split; [exact Hc2|]. split; [exact Hq|].
  split; [exact Hi|].
  destruct (exit_status w2) as [c|] eqn:E; [|congruence].
  rewrite (exit_status_stays w2
             (set_tty_closed true
                (set_clock (clock w2 + 1) (set_stop_event true w2))) c);
    [discriminate|reflexivity| |exact E].
  cbn. lia.
Qed.

Lemma interrupt_shuts_down_witness :
  exit_status (set_sigint true session) = None /\
  sigint (set_sigint true session) = true /\
  exists w',
    main 1 (set_sigint true session) = Done tt w' /\
    console w' = (console (set_sigint true session) ++ [closing_notice])%list /\
    calls w' =
      (calls (set_sigint true session)
       ++ [StdinWrite ("stop" ++ nl); StdinFlush; Wait (Some 10%N)]
       ++ (if exits_within 10 (set_sigint true session)
           then [] else [Terminate; Wait None]))%list /\
    input_queue w' = input_queue (set_sigint true session) /\
    sigint w' = false /\
    exit_status w' <> None.
Proof.
  split; [reflexivity|]. split; [reflexivity|].
  apply (interrupt_shuts_down 0 (set_sigint true session)); reflexivity.
Defined.

(** ** More on input capture *)

Section CaptureMore.

Lemma rstrip_cons (c : ascii) (s : string) :
  rstrip (String c s) =
  match rstrip s with
  | EmptyString => if isspace c then EmptyString else String c EmptyString
  | String a r => String c (String a r)
  end.
Proof. reflexivity. Qed.

Lemma rstrip_idempotent (s : string) : rstrip (rstrip s) = rstrip s.
Proof.
  induction s as [|c s IH]; [reflexivity|].
  rewrite (rstrip_cons c s). destruct (rstrip s) as [|a r] eqn:E.
  - destruct (isspace c) eqn:Hc; [reflexivity|].
    cbn. rewrite Hc. reflexivity.
  - rewrite (rstrip_cons c (String a r)), IH. reflexivity.
Qed.

(** What is left of a text trimmed on the left is empty or starts with a
    character that is no white space. *)
Lemma lstrip_head (s : string) :
  lstrip s = "" \/ exists c r, lstrip s = String c r /\ isspace c = false.
Proof.
  induction s as [|c s IH]; [left; reflexivity|].
  cbn. destruct (isspace c) eqn:Hc; [exact IH|].
  right. exists c, s. split; [reflexivity|exact Hc].
Qed.

Lemma lstrip_rstrip_lstrip (s : string) :
  lstrip (rstrip (lstrip s)) = rstrip (lstrip s).
Proof.
  destruct (lstrip_head s) as [->|(c & r & -> & Hc)]; [reflexivity|].
  rewrite (rstrip_cons c r). destruct (rstrip r); rewrite ?Hc; cbn;
    rewrite Hc; reflexivity.
Qed.

Lemma strip_idempotent (s : string) : strip (strip s) = strip s.
Proof.
  unfold strip. rewrite lstrip_rstrip_lstrip. apply rstrip_idempotent.
Qed.

Lemma strip_all_space (ws : string) : all_space ws = true -> strip ws = "".
Proof.
  intros H. unfold strip.
  replace (lstrip ws) with (lstrip (ws ++ "")).
  - rewrite (lstrip_spaces ws "" H). reflexivity.
  - f_equal. clear H. induction ws as [|c ws IH]; cbn; [|rewrite IH];
      reflexivity.
Qed.

(** The capture task under any terminal: it returns, and all it has done is
    to append trimmed lines to the queue. *)
Lemma input_thread_appends (stdin : stream) :
  forall w,
    forallb fails_with_Exception stdin = true ->
    exists l,
      input_thread stdin w = Done tt (set_input_queue (input_queue w ++ l)%list w) /\
      Forall (fun u => strip u = u) l.
Proof.
  induction stdin as [|ev rest IH]; intros w H.
  - exists []. split; [|constructor].
    rewrite app_nil_r, set_input_queue_same.
    cbn. unfold bind, stop_event_is_set. destruct (stop_event w); reflexivity.
  - cbn in H. apply andb_prop in H. destruct H as [Hev Hrest].
    destruct (stop_event w) eqn:Hstop.
    { exists []. split; [|constructor].
      rewrite app_nil_r, set_input_queue_same.
      cbn [input_thread]. unfold bind, stop_event_is_set. rewrite Hstop.
      reflexivity. }
    destruct ev as [|line|e|e].
    + destruct (IH w Hrest) as (l & E & Hl). exists l. split; [|exact Hl].
      cbn [input_thread]. unfold stop_event_is_set. unfold bind at 1.
      rewrite Hstop. exact E.
    + destruct (String.eqb line "") eqn:El.
      * exists []. split; [|constructor].
        rewrite app_nil_r, set_input_queue_same.
        cbn [input_thread]. unfold bind, stop_event_is_set.
        rewrite Hstop, El. reflexivity.
      * apply String.eqb_neq in El.
        destruct (IH (set_input_queue (input_queue w ++ [strip line])%list w)
                    Hrest) as (l & E & Hl).
        exists (strip line :: l). split.
        { rewrite (input_thread_line line rest w Hstop El). rewrite E.
          cbn [input_queue set_input_queue]. rewrite <- app_assoc.
          reflexivity. }
        constructor; [apply strip_idempotent|exact Hl].
    + exists []. split; [|constructor].
      rewrite app_nil_r, set_input_queue_same.
      cbn [input_thread]. unfold bind, stop_event_is_set. rewrite Hstop.
      cbn in Hev. unfold try_except, raise, ret. rewrite Hev. reflexivity.
    + exists []. split; [|constructor].
      rewrite app_nil_r, set_input_queue_same.
      cbn [input_thread]. unfold bind, stop_event_is_set. rewrite Hstop.
      cbn in Hev. unfold try_except, raise, ret. rewrite Hev. reflexivity.
Qed.

End CaptureMore.

(** [X5] With the stop flag unset, the capture task reads an orderly
    terminal to its end and returns; it has put every line on the queue
    once, trimmed on both sides, behind what was there and in the order
    typed, and has changed nothing else. *)
Theorem capture_queues_lines_in_order (stdin : stream) (w : world) :
  stop_event w = false -> orderly stdin = true ->
  input_thread stdin w =
  Done tt (set_input_queue (input_queue w ++ map strip (lines_of stdin))%list w).
Proof. intros Hstop H. exact (input_thread_orderly stdin w Hstop H). Qed.

Lemma capture_queues_lines_in_order_witness :
  stop_event (typed ["help"] server_up) = false /\
  orderly typing = true /\
  map strip (lines_of typing) = ["say hi"; "fakelog  up"; "list"] /\
  input_thread typing (typed ["help"] server_up) =
  Done tt
    (set_input_queue
       (input_queue (typed ["help"] server_up) ++ map strip (lines_of typing))%list
       (typed ["help"] server_up)).
Proof.
  repeat (split; [reflexivity|]).
  apply (capture_queues_lines_in_order typing (typed ["help"] server_up));
    reflexivity.
Defined.

(** [X6] Whatever the terminal delivers, and whether the stop flag is set or
    not, a failure of the class [Exception] never leaves the capture task:
    it returns, and all it has done is to append lines to the queue, each of
    them trimmed (trimming it again changes nothing). *)
Theorem capture_only_appends_trimmed_lines (stdin : stream) (w : world) :
  forallb fails_with_Exception stdin = true ->
  exists l,
    input_thread stdin w =
    Done tt (set_input_queue (input_queue w ++ l)%list w) /\
    Forall (fun u => strip u = u) l.
Proof. intros H. exact (input_thread_appends stdin w H). Qed.

Lemma capture_only_appends_trimmed_lines_witness :
  forallb fails_with_Exception failing_terminal = true /\
  input_thread failing_terminal server_up =
  Done tt (set_input_queue ["say hi"] server_up) /\
  exists l,
    input_thread failing_terminal server_up =
    Done tt (set_input_queue (input_queue server_up ++ l)%list server_up) /\
    Forall (fun u => strip u = u) l.
Proof.
  split; [reflexivity|]. split; [reflexivity|].
  apply (capture_only_appends_trimmed_lines failing_terminal server_up).
  reflexivity.
Defined.

(** [X7] A line of white space only, such as a bare return, is not taken for
    the end of the input: the capture task queues the empty line in its
    place, goes on to the lines after it and returns at the end of the
    input; the next turn of the main loop, with the child running and
    reading its input, forwards the empty line as a single newline, prints
    nothing and leaves the later lines in the queue. *)
Theorem blank_line_is_forwarded (ws : string) (rest : stream) (w : world) :
  all_space ws = true -> ws <> "" -> orderly rest = true ->
  stop_event w = false -> input_queue w = [] ->
  exit_status w = None -> sigint w = false ->
  stdin_closed w = false -> stdin_pending w = "" ->
  input_thread (Data ws :: rest) w =
  Done tt (set_input_queue ("" :: map strip (lines_of rest)) w) /\
  exists w2,
    loop_body (set_input_queue ("" :: map strip (lines_of rest)) w)
    = Done Next w2 /\
    stdin_received w2 = stdin_received w ++ nl /\
    calls w2 = (calls w ++ [StdinWrite nl; StdinFlush])%list /\
    console w2 = console w /\
    input_queue w2 = map strip (lines_of rest).
Proof.
  intros Hws Hne Hrest Hstop Hq Hrun Hsig Hopen Hpend. split.
  - rewrite (capture_head ws rest w Hstop Hq Hne Hrest).
    rewrite (strip_all_space ws Hws). reflexivity.
  - assert (Hexit : lower "" <> "exit") by discriminate.
    exact (loop_forwards_head "" (map strip (lines_of rest)) w
             Hexit eq_refl Hrun Hsig Hopen Hpend).
Qed.

Lemma blank_line_is_forwarded_witness :
  all_space nl = true /\ nl <> "" /\
  orderly [Data ("list" ++ nl)] = true /\
  stop_event server_up = false /\ input_queue server_up = [] /\
  exit_status server_up = None /\ sigint server_up = false /\
  stdin_closed server_up = false /\ stdin_pending server_up = "" /\
  input_thread [Data nl; Data ("list" ++ nl)] server_up =
  Done tt (set_input_queue (""
                            :: map strip (lines_of [Data ("list" ++ nl)]))
             server_up) /\
  exists w2,
    loop_body (set_input_queue (""
                                :: map strip (lines_of [Data ("list" ++ nl)]))
                 server_up)
    = Done Next w2 /\
    stdin_received w2 = stdin_received server_up ++ nl /\
    calls w2 = (calls server_up ++ [StdinWrite nl; StdinFlush])%list /\
    console w2 = console server_up /\
    input_queue w2 = map strip (lines_of [Data ("list" ++ nl)]).
Proof.
  assert (Hne : nl <> "") by discriminate.
  split; [reflexivity|]. split; [exact Hne|].
  do 7 (split; [reflexivity|]).
  apply (blank_line_is_forwarded nl [Data ("list" ++ nl)] server_up);
    try reflexivity.
  exact Hne.
Defined.

Section FakelogMessage.

Lemma strip_fixed_rstrip (u : string) : strip u = u -> rstrip u = u.
Proof.
  intros H. rewrite <- H at 1. unfold strip.
  rewrite rstrip_idempotent. exact H.
Qed.

Lemma rstrip_tail_cons (c : ascii) (s : string) :
  rstrip (String c s) = String c s -> s <> "" -> rstrip s = s.
Proof.
  rewrite rstrip_cons. intros H Hs.
  destruct (rstrip s) as [|a r].
  - destruct (isspace c); [discriminate|].
    injection H as H. elim Hs. symmetry. exact H.
  - injection H as H. exact H.
Qed.

Lemma rstrip_tail (p m : string) :
  rstrip (p ++ m) = p ++ m -> m <> "" -> rstrip m = m.
Proof.
  induction p as [|c p IH]; intros H Hm; [exact H|].
  apply IH; [|exact Hm].
  apply (rstrip_tail_cons c (p ++ m) H).
  destruct p; [exact Hm|discriminate].
Qed.

(** What the main loop does with a trimmed line that is a [fakelog ]
    line. *)
Lemma trimmed_fakelog (u : string) :
  strip u = u -> startswith u "fakelog " = true ->
  slice_from 8 u <> "" /\
  rstrip (slice_from 8 u) = slice_from 8 u /\
  forall w,
    dispatch u w =
    Done Next
      (set_console
         (console w
          ++ [("[" ++ Clock.strftime_HMS (clock w) ++ " INFO]: "
               ++ slice_from 8 u)%string])%list
         w).
Proof.
  intros Hu Hfake.
  pose proof (startswith_split "fakelog " u Hfake) as Eu.
  change (String.length "fakelog ") with 8%nat in Eu.
  pose proof (strip_fixed_rstrip u Hu) as Hr.
  assert (Hm : slice_from 8 u <> "").
  { intros Hempty. rewrite Hempty in Eu. rewrite Eu in Hr. discriminate Hr. }
  split; [exact Hm|]. split.
  - rewrite Eu in Hr at 1 2.
    exact (rstrip_tail "fakelog " (slice_from 8 u) Hr Hm).
  - intros w. pose proof (dispatch_fakelog (slice_from 8 u) w) as Ed.
    rewrite <- Eu in Ed. exact Ed.
Qed.

End FakelogMessage.

(** [X8] Because lines are trimmed before they are queued, every line the
    capture task queues that is a [fakelog ] line carries a message that is
    not empty and does not end in white space, and the main loop prints for
    it the log line with exactly that message: the bare [[HH:MM:SS INFO]: ]
    is never printed for a captured line. *)
Theorem fakelog_message_is_never_empty (stdin : stream) (w : world) :
  forallb fails_with_Exception stdin = true ->
  exists l,
    input_thread stdin w =
    Done tt (set_input_queue (input_queue w ++ l)%list w) /\
    Forall
      (fun u =>
         startswith u "fakelog " = true ->
         slice_from 8 u <> "" /\
         rstrip (slice_from 8 u) = slice_from 8 u /\
         forall w0,
           dispatch u w0 =
           Done Next
             (set_console
                (console w0
                 ++ [("[" ++ Clock.strftime_HMS (clock w0) ++ " INFO]: "
                      ++ slice_from 8 u)%string])%list
                w0))
      l.
Proof.
  intros H. destruct (input_thread_appends stdin w H) as (l & E & Hl).
  exists l. split; [exact E|].
  apply (Forall_impl _ (fun u Hu => trimmed_fakelog u Hu) Hl).
Qed.

Lemma fakelog_message_is_never_empty_witness :
  forallb fails_with_Exception fakelog_typing = true /\
  input_thread fakelog_typing server_up =
  Done tt (set_input_queue ["fakelog up"; "fakelog"; "fakelog"] server_up) /\
  exists l,
    input_thread fakelog_typing server_up =
    Done tt (set_input_queue (input_queue server_up ++ l)%list server_up) /\
    Forall
      (fun u =>
         startswith u "fakelog " = true ->
         slice_from 8 u <> "" /\
         rstrip (slice_from 8 u) = slice_from 8 u /\
         forall w0,
           dispatch u w0 =
           Done Next
             (set_console
                (console w0
                 ++ [("[" ++ Clock.strftime_HMS (clock w0) ++ " INFO]: "
                      ++ slice_from 8 u)%string])%list
                w0))
      l.
Proof.
  split; [reflexivity|]. split; [reflexivity|].
  apply (fakelog_message_is_never_empty fakelog_typing server_up).
  reflexivity.
Defined.

(** ** More on the output relay *)

Section RelayMore.

Lemma read_output_prints (pipe : stream) :
  forall w,
    ends_in (read_output pipe handle_output w)
      (fun w' => exists l, w' = set_console (console w ++ l)%list w).
Proof.
  induction pipe as [|ev rest IH]; intros w.
  - cbn. exists []. rewrite app_nil_r, set_console_same. reflexivity.
  - destruct ev as [|line|e|e].
    + exact (IH w).
    + cbn [read_output]. destruct (String.eqb line "").
      * cbn. exists []. rewrite app_nil_r, set_console_same. reflexivity.
      * change (ends_in
                  (read_output rest handle_output
                     (set_console (console w ++ [rstrip line])%list w))
                  (fun w' => exists l, w' = set_console (console w ++ l)%list w)).
        pose proof (IH (set_console (console w ++ [rstrip line])%list w)) as H.
        destruct (read_output rest handle_output
                    (set_console (console w ++ [rstrip line])%list w))
          as [a w'|e w'|]; [| |exact I];
          destruct H as (l & ->); exists (rstrip line :: l);
          cbn [console set_console]; rewrite <- app_assoc; reflexivity.
    + cbn. exists []. rewrite app_nil_r, set_console_same. reflexivity.
    + cbn. exists []. rewrite app_nil_r, set_console_same. reflexivity.
Qed.

Lemma read_output_app (p1 p2 : stream) (callback : string -> M unit) :
  orderly p1 = true ->
  forall w,
    read_output (p1 ++ p2)%list callback w =
    (read_output p1 callback ;; read_output p2 callback) w.
Proof.
  induction p1 as [|ev rest IH]; intros H w; [reflexivity|].
  cbn in H. apply andb_prop in H. destruct H as [Hev Hrest].
  destruct ev as [|line|e|e]; try discriminate Hev.
  - exact (IH Hrest w).
  - apply negb_true_iff in Hev.
    cbn [app read_output]. rewrite Hev.
    unfold bind. destruct (callback (rstrip line) w) as [a w1|e w1|];
      try reflexivity.
    exact (IH Hrest w1).
Qed.

End RelayMore.

(** [X9] The relay only prints: whatever its pipe delivers or raises, the
    world it ends in is the one it started in with lines added at the end of
    the console; the child's input, the calls on the child and the queue of
    captured lines are untouched. *)
Theorem relay_only_prints (pipe : stream) (w : world) :
  ends_in (read_output pipe handle_output w)
    (fun w' => exists l, w' = set_console (console w ++ l)%list w).
Proof. exact (read_output_prints pipe w). Qed.

(** [X10] Reading stops at the first empty read: of a stream that delivers
    lines, then an empty read, then more, the relay prints and the capture
    task queues the lines before the empty read only, and both return. *)
Theorem nothing_is_read_after_end_of_file (p1 p2 : stream) (w : world) :
  orderly p1 = true ->
  read_output (p1 ++ Data "" :: p2)%list handle_output w =
  Done tt (set_console (console w ++ map rstrip (lines_of p1))%list w) /\
  (stop_event w = false ->
   input_thread (p1 ++ Data "" :: p2)%list w =
   Done tt (set_input_queue (input_queue w ++ map strip (lines_of p1))%list w)).
Proof.
  intros H. split.
  - rewrite (read_output_app p1 (Data "" :: p2) handle_output H w).
    unfold bind. rewrite (read_output_orderly p1 w H). reflexivity.
  - intros Hstop. revert w Hstop.
    induction p1 as [|ev rest IH]; intros w Hstop.
    + cbn. unfold bind, stop_event_is_set. rewrite Hstop.
      rewrite app_nil_r, set_input_queue_same. reflexivity.
    + cbn in H. apply andb_prop in H. destruct H as [Hev Hrest].
      destruct ev as [|line|e|e]; try discriminate Hev.
      * cbn [app input_thread lines_of]. unfold stop_event_is_set.
        unfold bind at 1. rewrite Hstop. exact (IH Hrest w Hstop).
      * apply negb_true_iff in Hev. apply String.eqb_neq in Hev.
        cbn [app].
        rewrite (input_thread_line line (rest ++ Data "" :: p2)%list w Hstop Hev).
        rewrite (IH Hrest
                   (set_input_queue (input_queue w ++ [strip line])%list w)
                   Hstop).
        cbn [input_queue set_input_queue lines_of map].
        rewrite <- app_assoc. reflexivity.
Qed.

Lemma nothing_is_read_after_end_of_file_witness :
  orderly typing = true /\
  read_output (typing ++ Data "" :: [Data ("late" ++ nl)%string])%list handle_output
    server_up =
  Done tt (set_console (console server_up ++ map rstrip (lines_of typing))%list
             server_up) /\
  input_thread (typing ++ Data "" :: [Data ("late" ++ nl)%string])%list server_up =
  Done tt (set_input_queue
             (input_queue server_up ++ map strip (lines_of typing))%list
             server_up).
Proof.
  split; [reflexivity|].
  destruct (nothing_is_read_after_end_of_file typing [Data ("late" ++ nl)]
              server_up eq_refl) as [Hr Hc].
  split; [exact Hr|exact (Hc eq_refl)].
Defined.

(** [X11] The relay works through its pipe piece by piece: on an orderly
    piece followed by any other, with any callback, it does what it does on
    the first piece and then, unless the callback has raised, what it does
    on the second. *)
Theorem relay_composes (p1 p2 : stream) (callback : string -> M unit)
    (w : world) :
  orderly p1 = true ->
  read_output (p1 ++ p2)%list callback w =
  (read_output p1 callback ;; read_output p2 callback) w.
Proof. intros H. exact (read_output_app p1 p2 callback H w). Qed.

Lemma relay_composes_witness :
  orderly typing = true /\
  read_output (typing ++ failing_terminal)%list handle_output server_up =
  (read_output typing handle_output ;;
   read_output failing_terminal handle_output) server_up.
Proof.
  split; [reflexivity|].
  apply (relay_composes typing failing_terminal handle_output server_up).
  reflexivity.
Defined.

(** ** A whole session *)

Section Session.

Lemma append_empty_r (s : string) : s ++ "" = s.
Proof. induction s as [|c s IH]; cbn; [|rewrite IH]; reflexivity. Qed.

Lemma append_assoc_string (a b c : string) : (a ++ b) ++ c = a ++ b ++ c.
Proof. induction a as [|x a IH]; cbn; [|rewrite IH]; reflexivity. Qed.

(** A line written and flushed to a child that reads its input: the child
    still reads its input afterwards. *)
Lemma write_flush_stays_open (s : string) (w : world) :
  pipe_broken w = false -> stdin_pending w = "" ->
  exists w',
    (stdin_write (s ++ nl) ;; stdin_flush) w = Done tt w' /\
    stdin_received w' = stdin_received w ++ s ++ nl /\
    stdin_pending w' = "" /\ stdin_closed w' = stdin_closed w /\
    clock w' = clock w /\ child_exit w' = child_exit w /\
    same_terminal w w'.
Proof.
  intros Hopen Hpend.
  unfold bind, stdin_write, stdin_flush.
  cbn [stdin_pending set_stdin_pending log_call].
  rewrite line_not_empty.
  replace (pipe_broken _) with (pipe_broken w) by reflexivity.
  rewrite Hopen, Hpend.
  eexists; split; [reflexivity|]. cbn.
  unfold same_terminal. repeat split; reflexivity.
Qed.

(** One turn of the loop on a line that is not [exit]. *)
Lemma loop_body_step (u : string) (q : list string) (w : world) :
  ready w -> input_queue w = u :: q ->
  String.eqb (lower u) "exit" = false ->
  exists w',
    loop_body w = Done Next w' /\
    ready w' /\ input_queue w' = q /\
    clock w' = clock w /\ child_exit w' = child_exit w /\
    stdin_received w' = stdin_received w ++ forwarded [u] /\
    console w' = (console w ++ logged (clock w) [u])%list.
Proof.
  intros (Hrun & Hsig & Hopen & Hpend) Hq Hexit.
  rewrite (loop_body_dequeue u q w Hrun Hsig Hq).
  set (w0 := set_input_queue q w).
  cbn [forwarded logged]. rewrite append_empty_r, app_nil_r.
  destruct (startswith u "fakelog ") eqn:Hfake.
  - pose proof (startswith_split "fakelog " u Hfake) as Eu.
    change (String.length "fakelog ") with 8%nat in Eu.
    pose proof (dispatch_fakelog (slice_from 8 u) w0) as Ed.
    rewrite <- Eu in Ed. rewrite Ed.
    eexists. split; [reflexivity|].
    cbn. rewrite append_empty_r.
    repeat split; assumption.
  - assert (Hp0 : pipe_broken w0 = false) by exact (pipe_open w Hrun Hopen).
    destruct (write_flush_stays_open u w0 Hp0 Hpend)
      as (w' & E & Hr & Hp & Hcl & Hclk & Hce & Hc & Hq' & _ & Hi & _).
    exists w'. split.
    { unfold dispatch. rewrite Hexit, Hfake.
      unfold poll. unfold bind at 1.
      change (exit_status w0) with (exit_status w). rewrite Hrun.
      rewrite bind_seq. unfold bind at 1. rewrite E. reflexivity. }
    split.
    { unfold ready. rewrite (exit_status_frame w0 w' Hclk Hce), Hi, Hcl, Hp.
      repeat split; assumption. }
    rewrite app_nil_r.
    repeat split; assumption.
Qed.

(** The loop works through the lines in front of the first [exit]. *)
Lemma main_loop_chain (us : list string) :
  forall (w : world) (q : list string),
    ready w -> no_exit us = true -> input_queue w = (us ++ q)%list ->
    exists w1,
      (forall fuel, main_loop (length us + fuel) w = main_loop fuel w1) /\
      ready w1 /\ input_queue w1 = q /\
      clock w1 = clock w /\ child_exit w1 = child_exit w /\
      stdin_received w1 = stdin_received w ++ forwarded us /\
      console w1 = (console w ++ logged (clock w) us)%list.
Proof.
  induction us as [|u rest IH]; intros w q Hready Hno Hq.
  - exists w. cbn. rewrite append_empty_r, app_nil_r.
    repeat split; try assumption; apply Hready.
  - cbn in Hno. apply andb_prop in Hno. destruct Hno as [Hu Hrest].
    apply negb_true_iff in Hu.
    destruct (loop_body_step u (rest ++ q)%list w Hready Hq Hu)
      as (w' & E & Hready' & Hq' & Hclk' & Hce' & Hr' & Hc').
    destruct (IH w' q Hready' Hrest Hq')
      as (w1 & Hloop & Hready1 & Hq1 & Hclk1 & Hce1 & Hr1 & Hc1).
    exists w1. split.
    { intros fuel. cbn [length Nat.add main_loop].
      unfold bind. rewrite E. exact (Hloop fuel). }
    split; [exact Hready1|]. split; [exact Hq1|].
    split; [congruence|]. split; [congruence|].
    split.
    + rewrite Hr1, Hr'. cbn [forwarded].
      rewrite append_empty_r, !append_assoc_string. reflexivity.
    + rewrite Hc1, Hc', Hclk'. cbn [logged].
      rewrite app_nil_r, <- !app_assoc. reflexivity.
Qed.

End Session.

(** [X12] A session: with the child running and reading its input, the main
    loop takes the captured lines in order up to the first [exit]; of these
    the child receives exactly the lines that are no [fakelog ] lines, each
    with its newline, in the order typed, and then the line [stop]; the
    console gets exactly one log line for each [fakelog ] line, in order;
    [main] returns with the child gone and the lines typed after [exit]
    still in the queue. *)
Theorem session_in_order (us q : list string) (x : string) (w : world) :
  exit_status w = None -> sigint w = false ->
  stdin_closed w = false -> stdin_pending w = "" ->
  no_exit us = true -> lower x = "exit" ->
  input_queue w = (us ++ x :: q)%list ->
  exists w',
    main (S (length us)) w = Done tt w' /\
    stdin_received w' = stdin_received w ++ forwarded us ++ "stop" ++ nl /\
    console w' = (console w ++ logged (clock w) us)%list /\
    input_queue w' = q /\
    exit_status w' <> None.
Proof.
  intros Hrun Hsig Hopen Hpend Hno Hx Hq.
  destruct (main_loop_chain us w (x :: q) (conj Hrun (conj Hsig (conj Hopen Hpend)))
              Hno Hq)
    as (w1 & Hloop & (Hrun1 & Hsig1 & Hopen1 & Hpend1) & Hq1 & _ & _ & Hr1 & Hc1).
  assert (Hbody : loop_body w1 =
                  (shutdown_server ;; ret Break) (set_input_queue q w1)).
  { rewrite (loop_body_dequeue x q w1 Hrun1 Hsig1 Hq1).
    apply dispatch_exit. exact Hx. }
  destruct (shutdown_server_running (set_input_queue q w1) Hrun1)
    as (w2 & E2 & _ & Hgone2 & Hr2 & Hcon2 & Hq2 & _).
  cbn [stdin_closed stdin_received stdin_pending console input_queue
       set_input_queue] in Hr2, Hcon2, Hq2.
  rewrite Hopen1, Hpend1 in Hr2.
  eexists. split.
  { unfold main, try_finally, try_except.
    rewrite <- (Nat.add_1_r (length us)), (Hloop 1%nat).
    cbn [main_loop]. unfold bind at 1. rewrite Hbody.
    unfold bind at 1. rewrite E2. cbn [ret].
    rewrite (main_finally_gone w2 Hgone2). reflexivity. }
  cbn [stdin_received console input_queue set_tty_closed set_clock
       set_stop_event].
  split. { rewrite Hr2, Hr1, append_assoc_string. reflexivity. }
  split. { rewrite Hcon2. exact Hc1. }
  split; [exact Hq2|].
  destruct (exit_status w2) as [c|] eqn:E; [|congruence].
  rewrite (exit_status_stays w2
             (set_tty_closed true
                (set_clock (clock w2 + 1) (set_stop_event true w2))) c);
    [discriminate|reflexivity| |exact E].
  cbn. lia.
Qed.

Lemma session_in_order_witness :
  exit_status session = None /\ sigint session = false /\
  stdin_closed session = false /\ stdin_pending session = "" /\
  no_exit ["fakelog Server ready"; "say hi"] = true /\
  lower "EXIT" = "exit" /\
  input_queue session
  = (["fakelog Server ready"; "say hi"] ++ "EXIT" :: ["list"])%list /\
  exists w',
    main (S (length ["fakelog Server ready"; "say hi"])) session = Done tt w' /\
    stdin_received w' =
      stdin_received session
      ++ forwarded ["fakelog Server ready"; "say hi"] ++ "stop" ++ nl /\
    console w' =
      (console session
       ++ logged (clock session) ["fakelog Server ready"; "say hi"])%list /\
    input_queue w' = ["list"] /\
    exit_status w' <> None.
Proof.
  repeat (split; [reflexivity|]).
  apply (session_in_order ["fakelog Server ready"; "say hi"] ["list"] "EXIT"
           session); reflexivity.
Defined.
